(** * NVIDIA vBIOS VFIO patcher: offset detection, sanity checks and splicing

    A shallow embedding of [nvidia_vbios_vfio_patcher.py].  Python [bytes]
    objects are lists of [byte]; text (exception messages, lines printed on
    standard output) is [string].  The methods of [VBIOSROM] mutate the
    object and print, so they live in a small state-and-exception monad whose
    state survives a raised exception, as a Python object does. *)

From Stdlib Require Import String Strings.Byte DecimalString.
From Stdlib Require Import List Bool Arith Lia ZArith NArith.
Import ListNotations.

Local Open Scope nat_scope.
Local Open Scope list_scope.

(** ** Bytes *)

(** A bytes literal [b'...']. *)
Definition B (s : string) : list byte := list_byte_of_string s.

(** [strip_prefix p s] is [Some rest] when [s = p ++ rest]. *)
Fixpoint strip_prefix (p s : list byte) : option (list byte) :=
  match p with
  | [] => Some s
  | x :: p' =>
      match s with
      | [] => None
      | y :: s' => if Byte.eqb x y then strip_prefix p' s' else None
      end
  end.

Definition startswith (s p : list byte) : bool :=
  match strip_prefix p s with Some _ => true | None => false end.

(** Python slicing [s[lo:hi]] for non-negative indices: indices beyond the
    end are clipped, and [lo >= hi] gives the empty slice. *)
Definition bytes_slice (s : list byte) (lo hi : nat) : list byte :=
  firstn (hi - lo) (skipn lo s).

(** [s[lo:]]. *)
Definition bytes_slice_from (s : list byte) (lo : nat) : list byte :=
  skipn lo s.

(** ** binascii *)

Module binascii.

Definition hex_digits : list byte := B "0123456789abcdef".

Definition hex_digit (n : N) : byte := nth (N.to_nat n) hex_digits x00.

(** [binascii.hexlify]: two lowercase hexadecimal digits per byte, high
    nibble first. *)
Definition hexlify (data : list byte) : list byte :=
  flat_map (fun c =>
              [hex_digit (N.shiftr (Byte.to_N c) 4);
               hex_digit (N.land (Byte.to_N c) 15)]) data.

(** The digit table of CPython ([_PyLong_DigitValue]): decimal digits and
    letters of either case have their value, every other byte has 37. *)
Definition digit_value (c : byte) : N :=
  let n := Byte.to_N c in
  if (48 <=? n)%N && (n <=? 57)%N then (n - 48)%N
  else if (97 <=? n)%N && (n <=? 122)%N then (n - 97 + 10)%N
  else if (65 <=? n)%N && (n <=? 90)%N then (n - 65 + 10)%N
  else 37%N.

Definition byte_of_nibbles (top bot : N) : byte :=
  match Byte.of_N (N.shiftl top 4 + bot) with
  | Some b => b
  | None => x00
  end.

(** The decoding loop of [binascii.unhexlify] over pairs of digits. *)
Fixpoint unhexlify_pairs (s : list byte) : option (list byte) :=
  match s with
  | c1 :: c2 :: s' =>
      let top := digit_value c1 in
      let bot := digit_value c2 in
      if (16 <=? top)%N || (16 <=? bot)%N then None
      else
        match unhexlify_pairs s' with
        | Some out => Some (byte_of_nibbles top bot :: out)
        | None => None
        end
  | _ => Some []
  end.

(** [binascii.unhexlify]: the length is checked first, then the digits;
    both failures are a [binascii.Error], given here by its message. *)
Definition unhexlify (s : list byte) : string + list byte :=
  if Nat.odd (length s) then inl "Odd-length string"%string
  else
    match unhexlify_pairs s with
    | Some out => inr out
    | None => inl "Non-hexadecimal digit found"%string
    end.

End binascii.

(** ** The fragment of [re] the patterns use

    Every pattern of the program is a concatenation of literals, the class
    [[a-f0-9]], counted repetitions [{n}] and capturing groups; there is no
    alternation and no open quantifier, so a pattern matches at a position in
    at most one way and matching is a function. *)

Module re.

Inductive regex : Type :=
| Lit (bs : list byte)
| HexClass
| Repeat (r : regex) (n : nat)
| Group (r : regex)
| Seq (r1 r2 : regex).

(** [[a-f0-9]] *)
Definition in_hex_class (c : byte) : bool :=
  let n := Byte.to_N c in
  ((97 <=? n)%N && (n <=? 102)%N) || ((48 <=? n)%N && (n <=? 57)%N).

(** [match_here r s] is the input left after [r] has matched a prefix of
    [s]. *)
Fixpoint match_here (r : regex) (s : list byte) : option (list byte) :=
  match r with
  | Lit bs => strip_prefix bs s
  | HexClass =>
      match s with
      | c :: s' => if in_hex_class c then Some s' else None
      | [] => None
      end
  | Repeat r' n =>
      (fix rep (k : nat) (s0 : list byte) : option (list byte) :=
         match k with
         | O => Some s0
         | S k' =>
             match match_here r' s0 with
             | Some s1 => rep k' s1
             | None => None
             end
         end) n s
  | Group r' => match_here r' s
  | Seq r1 r2 =>
      match match_here r1 s with
      | Some s1 => match_here r2 s1
      | None => None
      end
  end.

(** Number of capturing groups of a pattern: [len(m.groups())]. *)
Fixpoint ngroups (r : regex) : nat :=
  match r with
  | Lit _ | HexClass => 0
  | Repeat r' _ => ngroups r'
  | Group r' => S (ngroups r')
  | Seq r1 r2 => ngroups r1 + ngroups r2
  end.

(** A match object: where the match starts and its groups. *)
Record Match : Type := { start : nat; groups : nat }.

Fixpoint search_from (r : regex) (pos : nat) (s : list byte) : option nat :=
  match match_here r s with
  | Some _ => Some pos
  | None =>
      match s with
      | [] => None
      | _ :: s' => search_from r (S pos) s'
      end
  end.

(** [re.search]: the match at the leftmost position that has one. *)
Definition search (r : regex) (s : list byte) : option Match :=
  match search_from r 0 s with
  | Some p => Some {| start := p; groups := ngroups r |}
  | None => None
  end.

End re.

(** ** [bytes.count] and [bytes.find] *)

(** Non-overlapping occurrences of a non-empty [sub], scanning from the
    left; [skip] is the number of bytes still covered by the last
    occurrence counted. *)
Fixpoint count_scan (sub : list byte) (skip : nat) (s : list byte) : nat :=
  match s with
  | [] => 0
  | _ :: s' =>
      match skip with
      | S k => count_scan sub k s'
      | O =>
          if startswith s sub
          then S (count_scan sub (length sub - 1) s')
          else count_scan sub 0 s'
      end
  end.

(** [s.count(sub, lo, hi)].  The window is [s[lo:min(hi, len(s))]]; an
    empty [sub] is counted once more than the window is long, and not at all
    when the window does not exist ([lo] beyond its end). *)
Definition bytes_count (s sub : list byte) (lo hi : nat) : nat :=
  match sub with
  | [] =>
      if lo <=? Nat.min hi (length s)
      then S (length (bytes_slice s lo hi))
      else 0
  | _ => count_scan sub 0 (bytes_slice s lo hi)
  end.

Fixpoint find_scan (sub : list byte) (pos : nat) (s : list byte) : option nat :=
  if startswith s sub then Some pos
  else
    match s with
    | [] => None
    | _ :: s' => find_scan sub (S pos) s'
    end.

(** [s.find(sub, lo, hi)]: the lowest index of an occurrence inside the
    window [s[lo:min(hi, len(s))]], as an index into [s]; [None] is Python's
    [-1], which is also the answer when the window does not exist. *)
Definition bytes_find (s sub : list byte) (lo hi : nat) : option nat :=
  if Nat.min hi (length s) <? lo then None
  else find_scan sub lo (bytes_slice s lo hi).

(** ** Exceptions, the object and its monad *)

Inductive exn : Type :=
| CheckException (msg : string)
| SystemExit (code : nat).

Inductive result (A : Type) : Type :=
| Ok (a : A)
| Raise (e : exn).

Arguments Ok {A} a.
Arguments Raise {A} e.

(** [self.offsets = {"header": ..., "footer": ...}]: the two keys are fixed,
    so the dict is a record of two optional positions. *)
Record Offsets : Type := { header : option nat; footer : option nat }.

Record VBIOSROM : Type := { content : list byte; offsets : Offsets }.

(** What a run can change: the object, the lines printed and the file
    written at the end. *)
Record State : Type :=
  { self : VBIOSROM; stdout : list string; written : option (list byte) }.

Definition M (A : Type) : Type := State -> State * result A.

Definition ret {A : Type} (a : A) : M A := fun st => (st, Ok a).

Definition bind {A C : Type} (m : M A) (k : A -> M C) : M C :=
  fun st =>
    match m st with
    | (st', Ok a) => k a st'
    | (st', Raise e) => (st', Raise e)
    end.

Definition raise {A : Type} (e : exn) : M A := fun st => (st, Raise e).

(** [try: body except CheckException as e: handler e]; a [SystemExit] is not
    caught. *)
Definition try_except {A : Type} (body : M A) (handler : string -> M A) : M A :=
  fun st =>
    match body st with
    | (st', Raise (CheckException msg)) => handler msg st'
    | r => r
    end.

Declare Scope monad_scope.
Delimit Scope monad_scope with monad.
Notation "x <- m ;; k" := (bind m (fun x => k))
  (at level 61, m at next level, right associativity) : monad_scope.
Notation "m ;; k" := (bind m (fun _ => k))
  (at level 61, right associativity) : monad_scope.
Local Open Scope monad_scope.

Definition get_content : M (list byte) := fun st => (st, Ok (content (self st))).

Definition get_offsets : M Offsets := fun st => (st, Ok (offsets (self st))).

Definition put_offsets (o : Offsets) : M unit :=
  fun st =>
    ({| self := {| content := content (self st); offsets := o |};
        stdout := stdout st; written := written st |}, Ok tt).

(** [self.offsets["header"] = p] *)
Definition set_header (p : nat) : M unit :=
  o <- get_offsets ;; put_offsets {| header := Some p; footer := footer o |}.

(** [self.offsets["footer"] = p] *)
Definition set_footer (p : nat) : M unit :=
  o <- get_offsets ;; put_offsets {| header := header o; footer := Some p |}.

Definition print (line : string) : M unit :=
  fun st =>
    ({| self := self st; stdout := stdout st ++ [line]; written := written st |},
     Ok tt).

Definition write_file (data : list byte) : M unit :=
  fun st =>
    ({| self := self st; stdout := stdout st; written := Some data |}, Ok tt).

(** [f"{n}"] for a non-negative integer. *)
Definition str (n : nat) : string := NilEmpty.string_of_uint (Nat.to_uint n).

(** ** [VBIOSROM] *)

Definition CONFIRM_TEXT : string := "I agree to be careful".

Definition WARNING_TEXT : string :=
  ("
USE THIS SOFTWARE AT YOUR OWN DISCRETION. THIS SOFTWARE HAS *NOT* BEEN
EXTENSIVELY TESTED AND MAY NOT WORK WITH YOUR GRAPHICS CARD.

If you want to save the created vBIOS file, type the following phrase
EXACTLY as it is written below:

" ++ CONFIRM_TEXT ++ "
")%string.

(** [VBIOSROM.__init__], on the bytes read from the file. *)
Definition VBIOSROM_init (f : list byte) : VBIOSROM :=
  {| content := binascii.hexlify f;
     offsets := {| header := None; footer := None |} |}.

Import re.

(** [b'55aa(([a-f0-9]){2})(eb)(([a-f0-9]){20})(564944454f)'] *)
Definition HEADER_REGEX : regex :=
  Seq (Lit (B "55aa"))
  (Seq (Group (Repeat (Group HexClass) 2))
  (Seq (Group (Lit (B "eb")))
  (Seq (Group (Repeat (Group HexClass) 20))
       (Group (Lit (B "564944454f")))))).

(** [b'564e(([a-f0-9]){gap})(4e504453)(([a-f0-9]){56})(4e504445)']: the seven
    patterns of the catalog differ in [gap] only. *)
Definition footer_pattern (gap : nat) : regex :=
  Seq (Lit (B "564e"))
  (Seq (Group (Repeat (Group HexClass) gap))
  (Seq (Group (Lit (B "4e504453")))
  (Seq (Group (Repeat (Group HexClass) 56))
       (Group (Lit (B "4e504445")))))).

Definition FOOTER_GAPS : list (nat * string) :=
  [ (636, "RTX 30XX"%string);
    (572, "RTX 2060"%string);
    (476, "GTX 16XX / RTX 20XX"%string);
    (444, "Quadro PXXX"%string);
    (348, "GTX 10XX"%string);
    (188, "GTX 980"%string);
    (124, "GTX 400 - 900 Series"%string) ].

Definition FOOTER_DETECTORS : list (regex * string) :=
  map (fun e => (footer_pattern (fst e), snd e)) FOOTER_GAPS.

(** The [for pattern, series in FOOTER_DETECTORS] loop together with the
    [raise] that follows it: the first pattern found ends the method. *)
Fixpoint detect_footer_loop (detectors : list (regex * string)) : M unit :=
  match detectors with
  | [] => raise (CheckException "Couldn't find the ROM footer!")
  | (pattern, series) :: rest =>
      c <- get_content ;;
      match search pattern c with
      | Some m =>
          if groups m =? 6
          then set_footer (start m) ;;
               print ("ROM footer for " ++ series ++ " found!")
          else detect_footer_loop rest
      | None => detect_footer_loop rest
      end
  end.

(** [VBIOSROM.detect_offsets].  The [isinstance] test at its head cannot
    fail on a [list byte]. *)
Definition detect_offsets (disable_footer : bool) : M unit :=
  c <- get_content ;;
  match search HEADER_REGEX c with
  | None => raise (CheckException "Couldn't find the ROM header!")
  | Some header_match =>
      if negb (groups header_match =? 6)
      then raise (CheckException "Couldn't find the ROM header!")
      else
        set_header (start header_match) ;;
        if negb disable_footer
        then detect_footer_loop FOOTER_DETECTORS
        else ret tt
  end.

Definition NPDS : list byte := B "4e504453".
Definition NPDE : list byte := B "4e504445".

(** The body of the [try] block of [run_sanity_tests]. *)
Definition sanity_rules (header footer : nat) : M unit :=
  c <- get_content ;;
  let npds_count := bytes_count c NPDS header footer in
  if negb (npds_count =? 1)
  then raise (CheckException
         ("Expected only one 'NPDS' marker between header and footer, found "
          ++ str npds_count))
  else
    let npde_count := bytes_count c NPDE header footer in
    if negb (npde_count =? 3)
    then raise (CheckException
           ("Expected three 'NPDE' markers between header and footer, found "
            ++ str npde_count ++ " (possible vBIOS without UEFI support)"))
    else
      match bytes_find c NPDS header footer with
      | None =>
          raise (CheckException
            "Couldn't find NPDS position within header/footer bounds")
      | Some npds_pos =>
          let npde_after_npds_count := bytes_count c NPDE npds_pos footer in
          if negb (npde_after_npds_count =? 2)
          then raise (CheckException
                 "Expected two 'NPDE' markers after the 'NPDS' marker")
          else ret tt
      end.

(** [VBIOSROM.run_sanity_tests].  The handler either returns from the method
    or raises again, so the [print] that follows the [try] statement runs
    exactly when the protected block ended without an exception; it is
    sequenced after the rules (printing raises nothing). *)
Definition run_sanity_tests (ignore_check : bool) : M unit :=
  o <- get_offsets ;;
  match header o, footer o with
  | Some h, Some f =>
      try_except
        (sanity_rules h f ;; print "No problems found.")
        (fun e =>
           if ignore_check
           then print ("Encountered error during sanity check: " ++ e) ;;
                print "Ignoring..."
           else raise (CheckException e))
  | _, _ =>
      raise (CheckException "Header/footer offsets not set before sanity checks")
  end.

(** [VBIOSROM.get_spliced_rom].  A [binascii.Error] of [unhexlify] is caught
    and raised again as a [CheckException] carrying its message. *)
Definition get_spliced_rom (disable_footer : bool) : M (list byte) :=
  o <- get_offsets ;;
  c <- get_content ;;
  match header o with
  | None => raise (CheckException "Header offset not found; cannot splice ROM")
  | Some start =>
      spliced <-
        (if negb disable_footer
         then
           match footer o with
           | None =>
               raise (CheckException "Footer offset not found; cannot splice ROM")
           | Some end_ => ret (bytes_slice c start end_)
           end
         else ret (bytes_slice_from c start)) ;;
      match binascii.unhexlify spliced with
      | inr data => ret data
      | inl e =>
          raise (CheckException ("Failed to unhexlify spliced content: " ++ e))
      end
  end.

(** ** [main] *)

Record Args : Type :=
  { ignore_sanity_check : bool;
    disable_footer_strip : bool;
    skip_the_very_important_warning : bool }.

(** The steps of [main] once the arguments are parsed and the object is
    built; [answer] is the line typed at the prompt.  Parsing the arguments,
    opening and reading the input, reading the answer and writing the output
    are taken to succeed: their own failures ([SystemExit] of [argparse],
    [OSError], [EOFError]) are not modelled, and none of them is a
    [CheckException]. *)
Definition main_steps (args : Args) (answer : string) : M unit :=
  print "Scanning for ROM offsets..." ;;
  detect_offsets (disable_footer_strip args) ;;
  print "Offsets found!" ;;
  (if negb (disable_footer_strip args)
   then print "Running sanity checks..." ;;
        run_sanity_tests (ignore_sanity_check args)
   else ret tt) ;;
  spliced_rom <- get_spliced_rom (disable_footer_strip args) ;;
  (if negb (skip_the_very_important_warning args)
   then print WARNING_TEXT ;;
        print "Type here: " ;;
        if negb (String.eqb answer CONFIRM_TEXT)
        then print "Wrong answer, halting..." ;; raise (SystemExit 1)
        else ret tt
   else ret tt) ;;
  print "Writing the edited ROM..." ;;
  write_file spliced_rom ;;
  print "Done!".

(** [main] on the bytes [f] of the input file. *)
Definition main (args : Args) (f : list byte) (answer : string)
  : State * result unit :=
  main_steps args answer
    {| self := VBIOSROM_init f;
       stdout := ["Opening the ROM file..."%string];
       written := None |}.

(** A fresh object on its own, as a test would build it. *)
Definition fresh (f : list byte) : State :=
  {| self := VBIOSROM_init f; stdout := []; written := None |}.

(** ** Notions the specification is stated with

    They are defined by position, independently of the scanning functions
    above, and are decidable so that they can be evaluated on a buffer. *)

(** The pattern [r] matches in [s] starting at index [i]. *)
Definition matches_at (r : regex) (s : list byte) (i : nat) : bool :=
  (i <=? length s) &&
  match match_here r (skipn i s) with Some _ => true | None => false end.

Definition matches_anywhere (r : regex) (s : list byte) : bool :=
  existsb (matches_at r s) (seq 0 (S (length s))).

(** [pos] is the least index at which [r] matches in [s]. *)
Definition leftmost_match (r : regex) (s : list byte) (pos : nat) : bool :=
  matches_at r s pos && forallb (fun q => negb (matches_at r s q)) (seq 0 pos).

(** No entry of a list of catalog entries matches anywhere in [c]. *)
Definition none_matches (c : list byte) (entries : list (nat * string)) : bool :=
  forallb (fun e => negb (matches_anywhere (footer_pattern (fst e)) c)) entries.

(** The number of bytes of [s] covered by the match of [r] that starts at
    index [i]. *)
Definition match_span (r : regex) (s : list byte) (i : nat) : option nat :=
  match match_here r (skipn i s) with
  | Some rest => Some (length (skipn i s) - length rest)
  | None => None
  end.

(** [sub] occurs in [s] at index [i]. *)
Definition occurs_at (sub s : list byte) (i : nat) : bool :=
  startswith (skipn i s) sub.

(** The indices of the occurrences of [sub] in [s] that lie within the
    half-open range [[lo, hi)], in increasing order. *)
Definition occurrences (sub s : list byte) (lo hi : nat) : list nat :=
  filter (fun i => occurs_at sub s i && (i + length sub <=? hi))
         (seq lo (hi - lo)).

(** The indices at which [sub] occurs in [t]. *)
Definition positions (sub t : list byte) : list nat :=
  filter (occurs_at sub t) (seq 0 (length t)).

(** No proper suffix of [sub] is a prefix of [sub]: two occurrences of
    [sub] never overlap. *)
Definition overlap_free (sub : list byte) : bool :=
  forallb (fun j => negb (startswith sub (skipn j sub))) (seq 1 (length sub - 1)).

(** The footer anchor [564e] occurs at no index below [n]. *)
Definition anchor_free_before (c : list byte) (n : nat) : bool :=
  forallb (fun i => negb (occurs_at (B "564e") c i)) (seq 0 n).

(** A hexadecimal digit of either case, [[0-9a-fA-F]]. *)
Definition is_hex_digit (c : byte) : bool :=
  let n := Byte.to_N c in
  ((48 <=? n)%N && (n <=? 57)%N) || ((97 <=? n)%N && (n <=? 102)%N)
  || ((65 <=? n)%N && (n <=? 70)%N).

(** The three rules of the sanity check, on the occurrences of the two
    markers within [[h, f)]. *)
Definition rule_one_npds (c : list byte) (h f : nat) : bool :=
  length (occurrences NPDS c h f) =? 1.

Definition rule_three_npde (c : list byte) (h f : nat) : bool :=
  length (occurrences NPDE c h f) =? 3.

Definition rule_two_npde_after_npds (c : list byte) (h f : nat) : bool :=
  match occurrences NPDS c h f with
  | [p] => length (filter (fun i => p <? i) (occurrences NPDE c h f)) =? 2
  | _ => false
  end.

(** The violation the three rules find, if any, with the text the program
    gives it; the rules are tried in order. *)
Definition sanity_violation (c : list byte) (h f : nat) : option string :=
  if negb (rule_one_npds c h f)
  then Some ("Expected only one 'NPDS' marker between header and footer, found "
             ++ str (length (occurrences NPDS c h f)))%string
  else if negb (rule_three_npde c h f)
  then Some ("Expected three 'NPDE' markers between header and footer, found "
             ++ str (length (occurrences NPDE c h f))
             ++ " (possible vBIOS without UEFI support)")%string
  else if negb (rule_two_npde_after_npds c h f)
  then Some "Expected two 'NPDE' markers after the 'NPDS' marker"%string
  else None.

(** What the [except] clause of [run_sanity_tests] makes of a violation:
    with [ignore_check] it is printed and the method returns, otherwise it
    is raised. *)
Definition violation_outcome (ignore_check : bool) (st : State) (msg : string)
  : State * result unit :=
  if ignore_check
  then ({| self := self st;
           stdout := stdout st
                     ++ [("Encountered error during sanity check: " ++ msg)%string;
                         "Ignoring..."%string];
           written := written st |}, Ok tt)
  else (st, Raise (CheckException msg)).

(** [main] in two halves: its steps up to the splice, which yield the bytes
    to write, and its steps from the prompt on.  [main_steps] is the first
    followed by the second. *)
Definition pipeline (args : Args) : M (list byte) :=
  print "Scanning for ROM offsets..." ;;
  detect_offsets (disable_footer_strip args) ;;
  print "Offsets found!" ;;
  (if negb (disable_footer_strip args)
   then print "Running sanity checks..." ;;
        run_sanity_tests (ignore_sanity_check args)
   else ret tt) ;;
  get_spliced_rom (disable_footer_strip args).

Definition finish (args : Args) (answer : string) (spliced_rom : list byte)
  : M unit :=
  (if negb (skip_the_very_important_warning args)
   then print WARNING_TEXT ;;
        print "Type here: " ;;
        if negb (String.eqb answer CONFIRM_TEXT)
        then print "Wrong answer, halting..." ;; raise (SystemExit 1)
        else ret tt
   else ret tt) ;;
  print "Writing the edited ROM..." ;;
  write_file spliced_rom ;;
  print "Done!".

(** ** Sample images

    Buffers on which the statements below are evaluated. *)

Definition npds_bytes : list byte := [x4e; x50; x44; x53].
Definition npde_bytes : list byte := [x4e; x50; x44; x45].

(** The header anchor, with wildcard byte [w] and wildcard run [w10]. *)
Definition anchor_bytes (w : byte) (w10 : list byte) : list byte :=
  [x55; xaa; w; xeb] ++ w10 ++ [x56; x49; x44; x45; x4f].

(** A footer layout with gaps [g1] and [g2]. *)
Definition footer_bytes (g1 g2 : list byte) : list byte :=
  [x56; x4e] ++ g1 ++ npds_bytes ++ g2 ++ npde_bytes.

Definition sample_anchor : list byte := anchor_bytes x00 (repeat x00 10).

Definition sample_footer (gap_bytes : nat) : list byte :=
  footer_bytes (repeat x00 gap_bytes) (repeat x00 28).

(** Filler with one NPDS and three NPDE, two of them after the NPDS. *)
Definition sample_filler : list byte :=
  repeat x00 4 ++ npde_bytes ++ repeat x00 4 ++ npds_bytes ++ repeat x00 4
  ++ npde_bytes ++ npde_bytes ++ repeat x00 3.

(** A "GTX 400 - 900 Series" layout followed by a "GTX 10XX" layout. *)
Definition image_two_layouts : list byte :=
  sample_anchor ++ sample_footer 62 ++ sample_footer 174.

(** A footer layout placed before the header anchor. *)
Definition image_footer_first : list byte := sample_footer 62 ++ sample_anchor.

(** The header anchor and a footer layout, shifted by one hex digit. *)
Definition image_shifted : list byte :=
  [x05; x5a; xa0; x0e; xb0] ++ repeat x00 9 ++ [x05; x64; x94; x44; x54]
  ++ [xf5; x64; xe0] ++ repeat x00 61 ++ [x04; xe5; x04; x45; x30]
  ++ repeat x00 27 ++ [x04; xe5; x04; x44; x50].

(** The buffers of the scenario: the header anchor, filler and one footer
    layout; the footer layout starts at [scenario_footer_index]. *)
Definition scenario_image (w : byte) (w10 filler g1 g2 : list byte) : list byte :=
  anchor_bytes w w10 ++ filler ++ footer_bytes g1 g2.

Definition scenario_footer_index (filler : list byte) : nat :=
  2 * (19 + length filler).

(** The scenario image: anchor, well-formed filler, "GTX 10XX" layout, whose
    first gap is 348 hexadecimal digits, that is 174 bytes. *)
Definition image_gtx10 : list byte :=
  sample_anchor ++ sample_filler ++ sample_footer 174.

(** The same with a first gap of 348 bytes. *)
Definition image_gap_348_bytes : list byte :=
  sample_anchor ++ sample_filler ++ sample_footer 348.

(** Three NPDE in all, one of them after the NPDS. *)
Definition image_one_after : list byte :=
  sample_anchor ++ npde_bytes ++ npde_bytes ++ npds_bytes ++ npde_bytes
  ++ sample_footer 62.

(** Three NPDE in all, all of them after the NPDS. *)
Definition image_three_after : list byte :=
  sample_anchor ++ npds_bytes ++ npde_bytes ++ npde_bytes ++ npde_bytes
  ++ sample_footer 62.

(** Images without any header anchor. *)
Definition image_no_header : list byte := repeat x00 64.

(** * Properties *)

(** ** Bytes and prefixes *)

Lemma byte_eqb_eq (x y : byte) : Byte.eqb x y = true <-> x = y.
Proof.
  split; [apply Byte.byte_dec_bl | apply Byte.byte_dec_lb].
Qed.

Lemma byte_eqb_refl (x : byte) : Byte.eqb x x = true.
Proof. now apply byte_eqb_eq. Qed.

Lemma strip_prefix_Some (p : list byte) :
  forall s rest, strip_prefix p s = Some rest <-> s = p ++ rest.
Proof.
  induction p as [|x p IH]; intros s rest; simpl.
  - split; congruence.
  - destruct s as [|y s]; [split; discriminate|].
    destruct (Byte.eqb x y) eqn:E.
    + apply byte_eqb_eq in E; subst y. rewrite IH.
      split; intros H; [now subst | now inversion H].
    + split; [discriminate|]. intros H; inversion H; subst.
      now rewrite byte_eqb_refl in E.
Qed.

Lemma startswith_true (s p : list byte) :
  startswith s p = true <-> exists rest, s = p ++ rest.
Proof.
  unfold startswith. destruct (strip_prefix p s) as [rest|] eqn:E.
  - apply strip_prefix_Some in E. split; eauto.
  - split; [discriminate|]. intros [rest H].
    apply strip_prefix_Some in H. congruence.
Qed.

Lemma startswith_length (s p : list byte) :
  startswith s p = true -> length p <= length s.
Proof.
  intros [rest ->]%startswith_true. rewrite length_app. lia.
Qed.

(** ** The hexadecimal codec *)

Section Codec.
Import binascii.

Lemma hexlify_cons (c : byte) (data : list byte) :
  hexlify (c :: data) =
  hex_digit (N.shiftr (Byte.to_N c) 4)
    :: hex_digit (N.land (Byte.to_N c) 15) :: hexlify data.
Proof. reflexivity. Qed.

Lemma hexlify_app (x y : list byte) : hexlify (x ++ y) = hexlify x ++ hexlify y.
Proof. unfold hexlify. apply flat_map_app. Qed.

Lemma hexlify_length (data : list byte) : length (hexlify data) = 2 * length data.
Proof.
  induction data as [|c data IH]; [reflexivity|].
  rewrite hexlify_cons. simpl length. lia.
Qed.

Lemma digits_of_byte (c : byte) :
  let top := digit_value (hex_digit (N.shiftr (Byte.to_N c) 4)) in
  let bot := digit_value (hex_digit (N.land (Byte.to_N c) 15)) in
  ((16 <=? top)%N || (16 <=? bot)%N) = false /\ byte_of_nibbles top bot = c.
Proof. destruct c; vm_compute; split; reflexivity. Qed.

Lemma unhexlify_pairs_hexlify (data : list byte) :
  unhexlify_pairs (hexlify data) = Some data.
Proof.
  induction data as [|c data IH]; [reflexivity|].
  rewrite hexlify_cons.
  destruct (digits_of_byte c) as [Hd Hb].
  cbn [unhexlify_pairs]. cbv zeta in Hd, Hb.
  rewrite Hd, IH, Hb. reflexivity.
Qed.

Lemma odd_double (n : nat) : Nat.odd (2 * n) = false.
Proof.
  rewrite <- Nat.negb_even, Nat.even_mul. reflexivity.
Qed.

Lemma hexlify_in_hex_class (data : list byte) :
  forallb re.in_hex_class (hexlify data) = true.
Proof.
  induction data as [|c data IH]; [reflexivity|].
  rewrite hexlify_cons. cbn [forallb]. rewrite IH.
  destruct c; reflexivity.
Qed.

End Codec.

Lemma decode_encode (x : list byte) :
  binascii.unhexlify (binascii.hexlify x) = inr x.
Proof.
  unfold binascii.unhexlify.
  rewrite hexlify_length, odd_double, unhexlify_pairs_hexlify.
  reflexivity.
Qed.

(** C2. Round trip of the codec: decoding ([binascii.unhexlify], as done when
    splicing) the hexadecimal encoding ([binascii.hexlify], as done when
    loading) of any byte sequence gives that byte sequence back. *)
Theorem unhexlify_hexlify (x : list byte) :
  binascii.unhexlify (binascii.hexlify x) = inr x.
Proof. exact (decode_encode x). Qed.

Section Decoding.
Import binascii.

Lemma pair_induction {A : Type} (P : list A -> Prop) :
  P [] -> (forall x, P [x]) -> (forall x y l, P l -> P (x :: y :: l)) ->
  forall l, P l.
Proof.
  intros Hnil Hone Hstep.
  fix IH 1. intros [|x [|y l]].
  - exact Hnil.
  - apply Hone.
  - apply Hstep, IH.
Qed.

Lemma digit_value_hex (c : byte) :
  (16 <=? digit_value c)%N = negb (is_hex_digit c).
Proof. destruct c; reflexivity. Qed.


Lemma unhexlify_pairs_None (s : list byte) :
  Nat.odd (length s) = false ->
  (unhexlify_pairs s = None <-> forallb is_hex_digit s = false).
Proof.
  induction s as [|x|x y l IH] using pair_induction; intros Hlen.
  - simpl. split; discriminate.
  - discriminate Hlen.
  - cbn [unhexlify_pairs forallb].
    rewrite !digit_value_hex.
    change (Nat.odd (length (x :: y :: l))) with (Nat.odd (length l)) in Hlen.
    specialize (IH Hlen).
    destruct (is_hex_digit x), (is_hex_digit y); simpl;
      try (split; reflexivity).
    destruct (unhexlify_pairs l).
    + split; [discriminate|]. intros H. apply IH in H. discriminate.
    + split; [|reflexivity]. intros _. now apply IH.
Qed.

Lemma unhexlify_error (s : list byte) :
  (exists e, unhexlify s = inl e) <->
  Nat.odd (length s) = true \/ forallb is_hex_digit s = false.
Proof.
  unfold unhexlify. destruct (Nat.odd (length s)) eqn:Hodd.
  - split; eauto.
  - pose proof (unhexlify_pairs_None s Hodd) as Hp.
    destruct (unhexlify_pairs s).
    + split.
      * intros [e He]. discriminate.
      * intros [H|H]; [discriminate|].
        apply Hp in H. discriminate.
    + split; eauto. intros _. right. now apply Hp.
Qed.

Lemma forallb_firstn {A : Type} (p : A -> bool) (n : nat) (l : list A) :
  forallb p l = true -> forallb p (firstn n l) = true.
Proof.
  revert l; induction n as [|n IH]; intros [|x l]; simpl; auto.
  intros [Hx Hl]%andb_true_iff. now rewrite Hx, IH.
Qed.

Lemma forallb_skipn {A : Type} (p : A -> bool) (n : nat) (l : list A) :
  forallb p l = true -> forallb p (skipn n l) = true.
Proof.
  revert l; induction n as [|n IH]; intros [|x l]; simpl; auto.
  intros [Hx Hl]%andb_true_iff. now apply IH.
Qed.


End Decoding.

(** The library decoder on any string: it takes the digits of either case.
    The program only ever decodes ranges of a hex view, which hold no
    upper-case digit. *)
Lemma unhexlify_takes_either_case :
  binascii.unhexlify (B "AB") = inr [xab] /\
  forall s : list byte,
    (exists e, binascii.unhexlify s = inl e) <->
    Nat.odd (length s) = true \/ forallb is_hex_digit s = false.
Proof. split; [reflexivity | exact unhexlify_error]. Qed.

(** ** Matching and searching *)

Section Matching.

Lemma repeat_hex_match (n : nat) :
  forall s,
    match_here (Repeat (Group HexClass) n) s =
    if (n <=? length s) && forallb in_hex_class (firstn n s)
    then Some (skipn n s) else None.
Proof.
  induction n as [|n IH]; intros s.
  - reflexivity.
  - destruct s as [|c s]; [reflexivity|].
    cbn [length firstn forallb skipn].
    change (S n <=? S (length s)) with (n <=? length s).
    specialize (IH s).
    cbn [match_here] in IH |- *.
    destruct (in_hex_class c).
    + rewrite IH. reflexivity.
    + now rewrite andb_false_r.
Qed.

Lemma search_from_shift (r : regex) :
  forall s k, search_from r k s = option_map (Nat.add k) (search_from r 0 s).
Proof.
  induction s as [|c s IH]; intros k; simpl.
  - destruct (match_here r []); simpl; [f_equal; lia | reflexivity].
  - destruct (match_here r (c :: s)); simpl; [f_equal; lia|].
    rewrite (IH (S k)), (IH 1).
    destruct (search_from r 0 s); simpl; [f_equal; lia | reflexivity].
Qed.

Lemma matches_at_0 (r : regex) (s : list byte) :
  matches_at r s 0 =
  match match_here r s with Some _ => true | None => false end.
Proof. reflexivity. Qed.

Lemma matches_at_S (r : regex) (c : byte) (s : list byte) (i : nat) :
  matches_at r (c :: s) (S i) = matches_at r s i.
Proof. reflexivity. Qed.

Lemma forallb_through_map {A C : Type} (g : A -> C) (p : C -> bool) (l : list A) :
  forallb p (map g l) = forallb (fun x => p (g x)) l.
Proof. induction l as [|x l IH]; simpl; [reflexivity | now rewrite IH]. Qed.

Lemma existsb_through_map {A C : Type} (g : A -> C) (p : C -> bool) (l : list A) :
  existsb p (map g l) = existsb (fun x => p (g x)) l.
Proof. induction l as [|x l IH]; simpl; [reflexivity | now rewrite IH]. Qed.

Lemma forallb_seq_S (p : nat -> bool) (n : nat) :
  forallb p (seq 0 (S n)) = p 0 && forallb (fun i => p (S i)) (seq 0 n).
Proof.
  cbn [seq forallb]. f_equal. rewrite <- seq_shift, forallb_through_map. reflexivity.
Qed.

Lemma existsb_seq_S (p : nat -> bool) (n : nat) :
  existsb p (seq 0 (S n)) = p 0 || existsb (fun i => p (S i)) (seq 0 n).
Proof.
  cbn [seq existsb]. f_equal. rewrite <- seq_shift, existsb_through_map. reflexivity.
Qed.

Lemma search_from_leftmost (r : regex) :
  forall s pos, search_from r 0 s = Some pos <-> leftmost_match r s pos = true.
Proof.
  unfold leftmost_match.
  induction s as [|c s IH]; intros pos.
  - cbn [search_from]. destruct pos as [|pos].
    + rewrite matches_at_0. cbn [seq forallb]. rewrite andb_true_r.
      destruct (match_here r []); split; congruence.
    + change (matches_at r [] (S pos)) with false.
      destruct (match_here r []); split; discriminate.
  - cbn [search_from]. destruct pos as [|pos].
    + rewrite matches_at_0. cbn [seq forallb]. rewrite andb_true_r.
      destruct (match_here r (c :: s)) eqn:E; [split; reflexivity|].
      split; [|discriminate].
      rewrite search_from_shift.
      destruct (search_from r 0 s); discriminate.
    + rewrite matches_at_S, forallb_seq_S, matches_at_0.
      destruct (match_here r (c :: s)) eqn:E; cbn [negb andb].
      * rewrite andb_false_r. split; discriminate.
      * rewrite search_from_shift.
        rewrite <- (IH pos).
        destruct (search_from r 0 s) as [q|]; simpl.
        -- split; intros H; inversion H; reflexivity.
        -- split; discriminate.
Qed.

Lemma search_from_none (r : regex) :
  forall s, search_from r 0 s = None <-> matches_anywhere r s = false.
Proof.
  unfold matches_anywhere.
  induction s as [|c s IH].
  - cbn [search_from length seq existsb]. rewrite matches_at_0, orb_false_r.
    destruct (match_here r []); split; congruence.
  - cbn [length]. rewrite existsb_seq_S, matches_at_0.
    cbn [search_from].
    destruct (match_here r (c :: s)); [split; discriminate|].
    rewrite search_from_shift. cbn [orb].
    rewrite <- IH.
    destruct (search_from r 0 s); simpl; split; congruence.
Qed.

End Matching.

(** ** The shape of the patterns *)

Section Templates.

Lemma seq_match (r1 r2 : regex) (s rest : list byte) :
  match_here (Seq r1 r2) s = Some rest <->
  exists mid, match_here r1 s = Some mid /\ match_here r2 mid = Some rest.
Proof.
  cbn [match_here]. destruct (match_here r1 s) as [mid|].
  - split; [eauto|]. intros [mid' [H1 H2]]. congruence.
  - split; [discriminate|]. intros [mid' [H1 H2]]. discriminate.
Qed.

Lemma lit_match (p s rest : list byte) :
  match_here (Lit p) s = Some rest <-> s = p ++ rest.
Proof. apply strip_prefix_Some. Qed.

Lemma group_lit_match (p s rest : list byte) :
  match_here (Group (Lit p)) s = Some rest <-> s = p ++ rest.
Proof. apply strip_prefix_Some. Qed.

(** A run of [n] wildcard digits, [(([a-f0-9]){n})]. *)
Lemma group_run_match (n : nat) (s rest : list byte) :
  match_here (Group (Repeat (Group HexClass) n)) s = Some rest <->
  exists w, s = w ++ rest /\ length w = n /\ forallb in_hex_class w = true.
Proof.
  change (match_here (Group (Repeat (Group HexClass) n)) s)
    with (match_here (Repeat (Group HexClass) n) s).
  rewrite repeat_hex_match.
  destruct (n <=? length s) eqn:Hn; cbn [andb].
  - apply Nat.leb_le in Hn.
    destruct (forallb in_hex_class (firstn n s)) eqn:Hw.
    + split.
      * intros H; inversion H; subst rest. exists (firstn n s).
        rewrite firstn_skipn, length_firstn. repeat split; [lia | exact Hw].
      * intros [w [-> [Hl _]]]. f_equal.
        rewrite skipn_app, <- Hl, skipn_all, Nat.sub_diag. reflexivity.
    + split; [discriminate|].
      intros [w [-> [Hl Hh]]].
      rewrite firstn_app, <- Hl, firstn_all, Nat.sub_diag in Hw.
      cbn [firstn] in Hw. rewrite app_nil_r in Hw. congruence.
  - apply Nat.leb_gt in Hn. split; [discriminate|].
    intros [w [-> [Hl _]]]. rewrite length_app in Hn. lia.
Qed.

(** The header anchor: the 2-byte magic [55aa], one wildcard byte (two
    digits), the byte [eb], ten wildcard bytes (twenty digits) and the
    5-byte literal [564944454f]. *)
Lemma header_template (s rest : list byte) :
  match_here HEADER_REGEX s = Some rest <->
  exists w1 w2,
    s = B "55aa" ++ w1 ++ B "eb" ++ w2 ++ B "564944454f" ++ rest /\
    length w1 = 2 /\ length w2 = 20 /\
    forallb in_hex_class w1 = true /\ forallb in_hex_class w2 = true.
Proof.
  unfold HEADER_REGEX. split.
  - intros (s1 & H1 & (s2 & H2 & (s3 & H3 & (s4 & H4 & H5)%seq_match)%seq_match)%seq_match)%seq_match.
    apply lit_match in H1. apply group_run_match in H2 as (w1 & -> & L1 & F1).
    apply group_lit_match in H3. apply group_run_match in H4 as (w2 & -> & L2 & F2).
    apply group_lit_match in H5. subst. exists w1, w2. auto.
  - intros (w1 & w2 & -> & L1 & L2 & F1 & F2).
    apply seq_match. eexists; split; [now apply lit_match|].
    apply seq_match. eexists; split; [apply group_run_match; eauto|].
    apply seq_match. eexists; split; [now apply group_lit_match|].
    apply seq_match. eexists; split; [apply group_run_match; eauto|].
    now apply group_lit_match.
Qed.

(** A footer layout: the anchor [564e], a first gap of [gap] digits, the
    marker [4e504453], a second gap of 56 digits and the marker
    [4e504445]. *)
Lemma footer_template (gap : nat) (s rest : list byte) :
  match_here (footer_pattern gap) s = Some rest <->
  exists g1 g2,
    s = B "564e" ++ g1 ++ NPDS ++ g2 ++ NPDE ++ rest /\
    length g1 = gap /\ length g2 = 56 /\
    forallb in_hex_class g1 = true /\ forallb in_hex_class g2 = true.
Proof.
  unfold footer_pattern. split.
  - intros (s1 & H1 & (s2 & H2 & (s3 & H3 & (s4 & H4 & H5)%seq_match)%seq_match)%seq_match)%seq_match.
    apply lit_match in H1. apply group_run_match in H2 as (w1 & -> & L1 & F1).
    apply group_lit_match in H3. apply group_run_match in H4 as (w2 & -> & L2 & F2).
    apply group_lit_match in H5. subst. exists w1, w2. auto.
  - intros (w1 & w2 & -> & L1 & L2 & F1 & F2).
    apply seq_match. eexists; split; [now apply lit_match|].
    apply seq_match. eexists; split; [apply group_run_match; eauto|].
    apply seq_match. eexists; split; [now apply group_lit_match|].
    apply seq_match. eexists; split; [apply group_run_match; eauto|].
    now apply group_lit_match.
Qed.

Lemma ngroups_header : ngroups HEADER_REGEX = 6.
Proof. reflexivity. Qed.

Lemma search_leftmost (r : regex) (s : list byte) (pos : nat) :
  leftmost_match r s pos = true ->
  search r s = Some {| start := pos; groups := ngroups r |}.
Proof.
  intros H. apply search_from_leftmost in H. unfold search. now rewrite H.
Qed.

Lemma search_nowhere (r : regex) (s : list byte) :
  matches_anywhere r s = false -> search r s = None.
Proof.
  intros H. apply search_from_none in H. unfold search. now rewrite H.
Qed.

Lemma search_result (r : regex) (s : list byte) :
  (exists pos, leftmost_match r s pos = true /\
               search r s = Some {| start := pos; groups := ngroups r |})
  \/ (matches_anywhere r s = false /\ search r s = None).
Proof.
  unfold search. destruct (search_from r 0 s) as [p|] eqn:E.
  - left. exists p. split; [now apply search_from_leftmost | reflexivity].
  - right. split; [now apply search_from_none | reflexivity].
Qed.

End Templates.

(** ** Offset detection *)

Section Detection.

Lemma detect_footer_loop_found (st : State) :
  forall pre gap name post pos,
    none_matches (content (self st)) pre = true ->
    leftmost_match (footer_pattern gap) (content (self st)) pos = true ->
    detect_footer_loop
      (map (fun e => (footer_pattern (fst e), snd e))
           (pre ++ (gap, name) :: post)) st =
    ({| self := {| content := content (self st);
                   offsets := {| header := header (offsets (self st));
                                 footer := Some pos |} |};
        stdout := stdout st ++ [("ROM footer for " ++ name ++ " found!")%string];
        written := written st |}, Ok tt).
Proof.
  induction pre as [|[g n] pre IH]; intros gap name post pos Hpre Hpos.
  - cbn [app map fst snd detect_footer_loop]. unfold bind at 1, get_content.
    rewrite (search_leftmost _ _ _ Hpos). reflexivity.
  - cbn [none_matches forallb fst] in Hpre.
    apply andb_true_iff in Hpre as [Hg Hpre].
    apply negb_true_iff in Hg.
    cbn [app map fst snd detect_footer_loop]. unfold bind at 1, get_content.
    rewrite (search_nowhere _ _ Hg).
    now apply IH.
Qed.

Lemma detect_footer_loop_not_found (st : State) :
  forall entries,
    none_matches (content (self st)) entries = true ->
    detect_footer_loop (map (fun e => (footer_pattern (fst e), snd e)) entries) st =
    (st, Raise (CheckException "Couldn't find the ROM footer!")).
Proof.
  induction entries as [|[g n] entries IH]; intros Hno.
  - reflexivity.
  - cbn [none_matches forallb fst] in Hno.
    apply andb_true_iff in Hno as [Hg Hno].
    apply negb_true_iff in Hg.
    cbn [map fst snd detect_footer_loop]. unfold bind at 1, get_content.
    rewrite (search_nowhere _ _ Hg).
    now apply IH.
Qed.

(** What the footer loop leaves behind, whatever it finds. *)
Lemma detect_footer_loop_result (st : State) :
  forall entries,
    (exists pre gap name post pos,
        entries = pre ++ (gap, name) :: post /\
        none_matches (content (self st)) pre = true /\
        leftmost_match (footer_pattern gap) (content (self st)) pos = true)
    \/ none_matches (content (self st)) entries = true.
Proof.
  induction entries as [|[g n] entries IH].
  - right. reflexivity.
  - destruct (search_result (footer_pattern g) (content (self st)))
      as [[pos [Hpos _]]|[Hno _]].
    + left. exists [], g, n, entries, pos. auto.
    + destruct IH as [(pre & gap & name & post & pos & -> & Hpre & Hpos)|Hall].
      * left. exists ((g, n) :: pre), gap, name, post, pos.
        repeat split; auto.
        cbn [none_matches forallb fst]. now rewrite Hno.
      * right. cbn [none_matches forallb fst]. now rewrite Hno.
Qed.

Lemma detect_offsets_header_found (st : State) (df : bool) (h : nat) :
  leftmost_match HEADER_REGEX (content (self st)) h = true ->
  detect_offsets df st =
  let st1 := {| self := {| content := content (self st);
                           offsets := {| header := Some h;
                                         footer := footer (offsets (self st)) |} |};
                stdout := stdout st; written := written st |} in
  if df then (st1, Ok tt) else detect_footer_loop FOOTER_DETECTORS st1.
Proof.
  intros H. unfold detect_offsets, bind at 1, get_content.
  rewrite (search_leftmost _ _ _ H). cbn [groups start].
  rewrite ngroups_header. cbn [Nat.eqb negb].
  destruct df; reflexivity.
Qed.

Lemma detect_offsets_header_missing (st : State) (df : bool) :
  matches_anywhere HEADER_REGEX (content (self st)) = false ->
  detect_offsets df st =
  (st, Raise (CheckException "Couldn't find the ROM header!")).
Proof.
  intros H. unfold detect_offsets, bind at 1, get_content.
  now rewrite (search_nowhere _ _ H).
Qed.

Lemma detect_offsets_footer_found (st : State) (h : nat) :
  leftmost_match HEADER_REGEX (content (self st)) h = true ->
  forall pre gap name post pos,
    FOOTER_GAPS = pre ++ (gap, name) :: post ->
    none_matches (content (self st)) pre = true ->
    leftmost_match (footer_pattern gap) (content (self st)) pos = true ->
    detect_offsets false st =
    ({| self := {| content := content (self st);
                   offsets := {| header := Some h; footer := Some pos |} |};
        stdout := stdout st ++ [("ROM footer for " ++ name ++ " found!")%string];
        written := written st |}, Ok tt).
Proof.
  intros Hh pre gap name post pos Hcat Hpre Hpos.
  rewrite (detect_offsets_header_found st false h Hh). cbv zeta.
  unfold FOOTER_DETECTORS. rewrite Hcat.
  now rewrite (detect_footer_loop_found _ pre gap name post pos).
Qed.

Lemma detect_offsets_footer_missing (st : State) (h : nat) :
  leftmost_match HEADER_REGEX (content (self st)) h = true ->
  none_matches (content (self st)) FOOTER_GAPS = true ->
  detect_offsets false st =
  ({| self := {| content := content (self st);
                 offsets := {| header := Some h;
                               footer := footer (offsets (self st)) |} |};
      stdout := stdout st; written := written st |},
   Raise (CheckException "Couldn't find the ROM footer!")).
Proof.
  intros Hh Hno.
  rewrite (detect_offsets_header_found st false h Hh). cbv zeta.
  unfold FOOTER_DETECTORS.
  now rewrite detect_footer_loop_not_found.
Qed.

End Detection.

(** C1. Footer detection follows the catalog order.  The first gaps of the
    catalog are 636, 572, 476, 444, 348, 188 and 124 hexadecimal digits, in
    that order.  If an entry of the catalog matches somewhere in the buffer
    and no entry before it matches anywhere, the footer offset becomes the
    leftmost match of that entry and its variant name is the one announced,
    wherever the matches of later entries lie; if no entry matches, the
    search raises "Couldn't find the ROM footer!".  [detect_offsets] runs
    this search as soon as it has stored the header offset. *)
Theorem footer_detection_priority (st : State) :
  map fst FOOTER_GAPS = [636; 572; 476; 444; 348; 188; 124] /\
  (forall pre gap name post pos,
      FOOTER_GAPS = pre ++ (gap, name) :: post ->
      none_matches (content (self st)) pre = true ->
      leftmost_match (footer_pattern gap) (content (self st)) pos = true ->
      detect_footer_loop FOOTER_DETECTORS st =
      ({| self := {| content := content (self st);
                     offsets := {| header := header (offsets (self st));
                                   footer := Some pos |} |};
          stdout := stdout st ++ [("ROM footer for " ++ name ++ " found!")%string];
          written := written st |}, Ok tt)) /\
  (none_matches (content (self st)) FOOTER_GAPS = true ->
   detect_footer_loop FOOTER_DETECTORS st =
   (st, Raise (CheckException "Couldn't find the ROM footer!"))) /\
  (forall h,
      leftmost_match HEADER_REGEX (content (self st)) h = true ->
      detect_offsets false st =
      detect_footer_loop FOOTER_DETECTORS
        {| self := {| content := content (self st);
                      offsets := {| header := Some h;
                                    footer := footer (offsets (self st)) |} |};
           stdout := stdout st; written := written st |}).
Proof.
  split; [reflexivity|]. split; [|split].
  - intros pre gap name post pos Hcat Hpre Hpos.
    unfold FOOTER_DETECTORS. rewrite Hcat.
    now apply detect_footer_loop_found.
  - intros Hno. unfold FOOTER_DETECTORS.
    now apply detect_footer_loop_not_found.
  - intros h Hh. now rewrite (detect_offsets_header_found st false h Hh).
Qed.

(** On a buffer in which a "GTX 400 - 900 Series" layout comes first and a
    "GTX 10XX" layout later, the later one, earlier in the catalog, wins. *)
Lemma footer_detection_priority_witness :
  leftmost_match (footer_pattern 124)
    (content (self (fresh image_two_layouts))) 38 = true /\
  detect_footer_loop FOOTER_DETECTORS (fresh image_two_layouts) =
  ({| self := {| content := content (self (fresh image_two_layouts));
                 offsets := {| header := None; footer := Some 238 |} |};
      stdout := stdout (fresh image_two_layouts)
                ++ [("ROM footer for " ++ "GTX 10XX" ++ " found!")%string];
      written := written (fresh image_two_layouts) |}, Ok tt) /\
  detect_offsets false (fresh image_two_layouts) =
  ({| self := {| content := content (self (fresh image_two_layouts));
                 offsets := {| header := Some 0; footer := Some 238 |} |};
      stdout := ["ROM footer for GTX 10XX found!"%string];
      written := None |}, Ok tt).
Proof.
  split; [vm_compute; reflexivity|].
  destruct (footer_detection_priority (fresh image_two_layouts))
    as (_ & Hfound & _ & Hrun).
  split.
  - apply (Hfound (firstn 4 FOOTER_GAPS) 348 "GTX 10XX"%string
                  (skipn 5 FOOTER_GAPS) 238).
    + reflexivity.
    + vm_compute; reflexivity.
    + vm_compute; reflexivity.
  - rewrite (Hrun 0) by (vm_compute; reflexivity).
    vm_compute; reflexivity.
Defined.

(** ** Running the monad *)

Lemma bind_ok {A C : Type} (m : M A) (k : A -> M C) (st st' : State) (a : A) :
  m st = (st', Ok a) -> bind m k st = k a st'.
Proof. intros H. unfold bind. now rewrite H. Qed.

Lemma bind_raise {A C : Type} (m : M A) (k : A -> M C) (st st' : State) (e : exn) :
  m st = (st', Raise e) -> bind m k st = (st', Raise e).
Proof. intros H. unfold bind. now rewrite H. Qed.

(** The state after the header offset is stored. *)
Lemma detect_offsets_cases (st : State) (df : bool) :
  let c := content (self st) in
  let with_offsets (o : Offsets) :=
    {| self := {| content := c; offsets := o |};
       stdout := stdout st; written := written st |} in
  (matches_anywhere HEADER_REGEX c = false /\
   detect_offsets df st =
   (st, Raise (CheckException "Couldn't find the ROM header!")))
  \/
  (exists h, leftmost_match HEADER_REGEX c h = true /\
     ((df = true /\
       detect_offsets df st =
       (with_offsets {| header := Some h; footer := footer (offsets (self st)) |},
        Ok tt))
      \/
      (df = false /\ none_matches c FOOTER_GAPS = true /\
       detect_offsets df st =
       (with_offsets {| header := Some h; footer := footer (offsets (self st)) |},
        Raise (CheckException "Couldn't find the ROM footer!")))
      \/
      (df = false /\
       exists pre gap name post pos,
         FOOTER_GAPS = pre ++ (gap, name) :: post /\
         none_matches c pre = true /\
         leftmost_match (footer_pattern gap) c pos = true /\
         detect_offsets df st =
         ({| self := {| content := c;
                        offsets := {| header := Some h; footer := Some pos |} |};
             stdout := stdout st
                       ++ [("ROM footer for " ++ name ++ " found!")%string];
             written := written st |}, Ok tt)))).
Proof.
  intros c with_offsets.
  destruct (search_result HEADER_REGEX c) as [[h [Hh _]]|[Hno _]].
  - right. exists h. split; [exact Hh|].
    destruct df.
    + left. split; [reflexivity|].
      now rewrite (detect_offsets_header_found st true h Hh).
    + right.
      destruct (detect_footer_loop_result st FOOTER_GAPS)
        as [(pre & gap & name & post & pos & Hcat & Hpre & Hpos)|Hall].
      * right. split; [reflexivity|].
        exists pre, gap, name, post, pos.
        split; [exact Hcat|]. split; [exact Hpre|]. split; [exact Hpos|].
        now apply (detect_offsets_footer_found st h Hh pre gap name post pos).
      * left. split; [reflexivity|]. split; [exact Hall|].
        now apply detect_offsets_footer_missing.
  - left. split; [exact Hno|]. now apply detect_offsets_header_missing.
Qed.

(** ** What a reported match covers *)

Lemma matches_at_true (r : regex) (s : list byte) (i : nat) :
  matches_at r s i = true <->
  i <= length s /\ exists rest, match_here r (skipn i s) = Some rest.
Proof.
  unfold matches_at. rewrite andb_true_iff, Nat.leb_le.
  destruct (match_here r (skipn i s)) as [rest|].
  - split; intros [H _]; split; eauto.
  - split; intros [H1 H2]; [discriminate | destruct H2; discriminate].
Qed.

Lemma leftmost_match_matches (r : regex) (s : list byte) (pos : nat) :
  leftmost_match r s pos = true -> matches_at r s pos = true.
Proof. unfold leftmost_match. now intros [H _]%andb_true_iff. Qed.

Lemma header_span (c : list byte) (h : nat) :
  matches_at HEADER_REGEX c h = true ->
  match_span HEADER_REGEX c h = Some 38 /\ h + 38 <= length c /\
  occurs_at (B "55aa") c h = true.
Proof.
  intros [Hle [rest Hm]]%matches_at_true.
  unfold match_span, occurs_at. rewrite Hm.
  apply header_template in Hm as (w1 & w2 & Hs & L1 & L2 & _ & _).
  assert (Hlen : length (skipn h c) = 38 + length rest).
  { rewrite Hs, !length_app, L1, L2. reflexivity. }
  rewrite Hlen. rewrite length_skipn in Hlen.
  split; [f_equal; lia|]. split; [lia|].
  apply startswith_true. rewrite Hs. eauto.
Qed.

Lemma footer_span (gap : nat) (c : list byte) (p : nat) :
  matches_at (footer_pattern gap) c p = true ->
  match_span (footer_pattern gap) c p = Some (gap + 76) /\
  p + (gap + 76) <= length c /\
  occurs_at (B "564e") c p = true.
Proof.
  intros [Hle [rest Hm]]%matches_at_true.
  unfold match_span, occurs_at. rewrite Hm.
  apply footer_template in Hm as (g1 & g2 & Hs & L1 & L2 & _ & _).
  assert (Hlen : length (skipn p c) = gap + 76 + length rest).
  { rewrite Hs, !length_app, L1, L2. cbn [length B list_byte_of_string NPDS NPDE].
    simpl. lia. }
  rewrite Hlen. rewrite length_skipn in Hlen.
  split; [f_equal; lia|]. split; [lia|].
  apply startswith_true. rewrite Hs. eauto.
Qed.

Lemma catalog_gaps_even (gap : nat) (name : string) :
  In (gap, name) FOOTER_GAPS -> Nat.even (gap + 76) = true.
Proof.
  unfold FOOTER_GAPS. cbn [In].
  intros H.
  repeat (destruct H as [H|H]; [inversion H; subst; reflexivity|]).
  destruct H.
Qed.

(** The two anchors begin with different bytes, so no index starts both. *)
Lemma anchors_differ (c : list byte) (i : nat) :
  occurs_at (B "55aa") c i = true -> occurs_at (B "564e") c i = true -> False.
Proof.
  unfold occurs_at.
  intros [r1 H1]%startswith_true [r2 H2]%startswith_true.
  rewrite H1 in H2. discriminate H2.
Qed.

(** C8. The header is searched with the single anchor template: the 2-byte
    magic [55aa], a 1-byte wildcard, the byte [eb], a 10-byte wildcard run
    and the 5-byte literal [564944454f].  When the template matches, the
    header offset becomes the start of its leftmost match and no header
    error is raised; when it matches nowhere, detection raises "Couldn't find
    the ROM header!" and changes nothing, and [main] stops there: nothing is
    spliced and nothing is written. *)
Theorem header_detection (st : State) (df : bool) :
  (forall s rest,
      match_here HEADER_REGEX s = Some rest <->
      exists w1 w2,
        s = B "55aa" ++ w1 ++ B "eb" ++ w2 ++ B "564944454f" ++ rest /\
        length w1 = 2 /\ length w2 = 20 /\
        forallb in_hex_class w1 = true /\ forallb in_hex_class w2 = true)
  /\
  (forall pos,
      leftmost_match HEADER_REGEX (content (self st)) pos = true ->
      header (offsets (self (fst (detect_offsets df st)))) = Some pos /\
      snd (detect_offsets df st) <>
      Raise (CheckException "Couldn't find the ROM header!"))
  /\
  (matches_anywhere HEADER_REGEX (content (self st)) = false ->
   detect_offsets df st =
   (st, Raise (CheckException "Couldn't find the ROM header!")))
  /\
  (forall args f answer,
      matches_anywhere HEADER_REGEX (binascii.hexlify f) = false ->
      main args f answer =
      ({| self := VBIOSROM_init f;
          stdout := ["Opening the ROM file..."%string;
                     "Scanning for ROM offsets..."%string];
          written := None |},
       Raise (CheckException "Couldn't find the ROM header!"))).
Proof.
  split; [exact header_template|]. split; [|split].
  - intros pos Hpos.
    destruct (detect_offsets_cases st df)
      as [[Hno _]|(h & Hh & [[_ E]|[(_ & _ & E)|(_ & pre & gap & name & post & p & _ & _ & _ & E)]])].
    + apply search_from_none in Hno. apply search_from_leftmost in Hpos.
      congruence.
    + apply search_from_leftmost in Hh, Hpos.
      assert (h = pos) by congruence. subst h.
      rewrite E. split; [reflexivity | discriminate].
    + apply search_from_leftmost in Hh, Hpos.
      assert (h = pos) by congruence. subst h.
      rewrite E. split; [reflexivity | discriminate].
    + apply search_from_leftmost in Hh, Hpos.
      assert (h = pos) by congruence. subst h.
      rewrite E. split; [reflexivity | discriminate].
  - apply detect_offsets_header_missing.
  - intros args f answer Hno.
    unfold main, main_steps.
    erewrite bind_ok by reflexivity.
    erewrite bind_raise; [reflexivity|].
    now apply detect_offsets_header_missing.
Qed.

(** On a buffer of zero bytes the header is missing and [main] stops before
    any splice; on the two-layout image the header is found at 0. *)
Lemma header_detection_witness :
  main {| ignore_sanity_check := true; disable_footer_strip := true;
          skip_the_very_important_warning := true |}
       image_no_header "" =
  ({| self := VBIOSROM_init image_no_header;
      stdout := ["Opening the ROM file..."%string;
                 "Scanning for ROM offsets..."%string];
      written := None |},
   Raise (CheckException "Couldn't find the ROM header!"))
  /\
  header (offsets (self (fst (detect_offsets false (fresh image_two_layouts)))))
  = Some 0.
Proof.
  split.
  - apply (proj2 (proj2 (proj2 (header_detection (fresh image_no_header) true)))).
    vm_compute; reflexivity.
  - apply (proj1 (proj2 (header_detection (fresh image_two_layouts) false))).
    vm_compute; reflexivity.
Defined.

(** C3 (as amended). When detection succeeds, the header offset starts a
    match of the header template that covers 38 hexadecimal digits, and the
    footer offset, when the footer is searched, starts a match of a catalog
    entry that covers its gap plus 76 digits; both spans and the length of
    the hex view are even.  The start positions themselves need not be even:
    the search runs over hexadecimal digits, not over bytes. *)
Theorem reported_matches_cover_whole_bytes (f : list byte) (df : bool) (st : State) :
  detect_offsets df (fresh f) = (st, Ok tt) ->
  Nat.even (length (content (self st))) = true /\
  (exists h,
      header (offsets (self st)) = Some h /\
      match_span HEADER_REGEX (content (self st)) h = Some 38 /\
      h + 38 <= length (content (self st))) /\
  (df = false ->
   exists p gap name,
     footer (offsets (self st)) = Some p /\
     In (gap, name) FOOTER_GAPS /\
     match_span (footer_pattern gap) (content (self st)) p = Some (gap + 76) /\
     Nat.even (gap + 76) = true /\
     p + (gap + 76) <= length (content (self st))).
Proof.
  intros Hrun.
  destruct (detect_offsets_cases (fresh f) df)
    as [[_ E]|(h & Hh & [[Hdf E]|[(_ & _ & E)|(Hdf & pre & gap & name & post & p & Hcat & _ & Hp & E)]])];
    rewrite E in Hrun; inversion Hrun; subst st; clear Hrun; cbn [self content offsets header footer fresh VBIOSROM_init].
  - apply leftmost_match_matches, header_span in Hh as (Hs & Hle & _).
    cbn [self content fresh VBIOSROM_init] in Hs, Hle.
    split; [|split].
    + rewrite hexlify_length, <- Nat.negb_odd, odd_double. reflexivity.
    + exists h. auto.
    + intros Hf. congruence.
  - apply leftmost_match_matches, header_span in Hh as (Hs & Hle & _).
    apply leftmost_match_matches, footer_span in Hp as (Hps & Hple & _).
    cbn [self content fresh VBIOSROM_init] in Hs, Hle, Hps, Hple.
    split; [|split].
    + rewrite hexlify_length, <- Nat.negb_odd, odd_double. reflexivity.
    + exists h. auto.
    + intros _. exists p, gap, name.
      assert (Hin : In (gap, name) FOOTER_GAPS).
      { rewrite Hcat. apply in_elt. }
      repeat split; auto.
      now apply (catalog_gaps_even gap name).
Qed.

(** The shifted image: detection succeeds there. *)
Lemma reported_matches_cover_whole_bytes_witness :
  exists st,
    detect_offsets false (fresh image_shifted) = (st, Ok tt) /\
    Nat.even (length (content (self st))) = true /\
    match_span HEADER_REGEX (content (self st)) 1 = Some 38.
Proof.
  exists (fst (detect_offsets false (fresh image_shifted))).
  assert (Hrun : detect_offsets false (fresh image_shifted) =
                 (fst (detect_offsets false (fresh image_shifted)), Ok tt))
    by (vm_compute; reflexivity).
  split; [exact Hrun|].
  destruct (reported_matches_cover_whole_bytes image_shifted false _ Hrun)
    as [Heven _].
  split; [exact Heven | vm_compute; reflexivity].
Defined.

(** C3 as stated fails: on the shifted image detection succeeds with the
    header at index 1 and the footer at index 39, both odd. *)
Lemma odd_match_positions :
  ~ (forall (f : list byte) (df : bool) (st : State),
        detect_offsets df (fresh f) = (st, Ok tt) ->
        (forall h, header (offsets (self st)) = Some h -> Nat.even h = true) /\
        (forall p, footer (offsets (self st)) = Some p -> Nat.even p = true)).
Proof.
  intros H.
  assert (Hrun : detect_offsets false (fresh image_shifted) =
                 (fst (detect_offsets false (fresh image_shifted)), Ok tt))
    by (vm_compute; reflexivity).
  destruct (H image_shifted false _ Hrun) as [Hh _].
  specialize (Hh 1). 
  assert (E : header (offsets (self (fst (detect_offsets false (fresh image_shifted))))) = Some 1)
    by (vm_compute; reflexivity).
  specialize (Hh E). discriminate Hh.
Qed.

(** C4 (as amended). After detection on a freshly loaded image, the footer
    offset is set only if the header offset is set; when the header is not
    found the footer search is not reached, both offsets stay unset and the
    header error is raised; and whenever both offsets are set they are
    different indices, the two templates beginning with different bytes.
    Their order is not fixed: each search scans the whole buffer from its
    start. *)
Theorem offsets_after_detection (f : list byte) (df : bool) :
  let r := detect_offsets df (fresh f) in
  let o := offsets (self (fst r)) in
  (footer o <> None -> header o <> None) /\
  (header o = None ->
   footer o = None /\
   snd r = Raise (CheckException "Couldn't find the ROM header!")) /\
  (forall h p, header o = Some h -> footer o = Some p -> h <> p).
Proof.
  intros r o. subst o r.
  destruct (detect_offsets_cases (fresh f) df)
    as [[_ E]|(h & Hh & [[_ E]|[(_ & _ & E)|(_ & pre & gap & name & post & p & _ & _ & Hp & E)]])];
    rewrite E; cbn [fst snd self offsets header footer fresh VBIOSROM_init].
  - split; [congruence|]. split; [auto | discriminate].
  - split; [congruence|]. split; [discriminate | discriminate].
  - split; [congruence|]. split; [discriminate | discriminate].
  - split; [discriminate|]. split; [discriminate|].
    intros h' p' Eh Ep Heq. inversion Eh; inversion Ep; subst h' p'. subst p.
    apply leftmost_match_matches, header_span in Hh as (_ & _ & Ha).
    apply leftmost_match_matches, footer_span in Hp as (_ & _ & Hb).
    exact (anchors_differ _ _ Ha Hb).
Qed.

(** On the image whose footer layout precedes the header anchor both offsets
    are set and differ. *)
Lemma offsets_after_detection_witness :
  header (offsets (self (fst (detect_offsets false (fresh image_footer_first)))))
  = Some 200 /\
  footer (offsets (self (fst (detect_offsets false (fresh image_footer_first)))))
  = Some 0 /\
  200 <> 0.
Proof.
  assert (Eh : header (offsets (self (fst (detect_offsets false
                 (fresh image_footer_first))))) = Some 200)
    by (vm_compute; reflexivity).
  assert (Ep : footer (offsets (self (fst (detect_offsets false
                 (fresh image_footer_first))))) = Some 0)
    by (vm_compute; reflexivity).
  split; [exact Eh|]. split; [exact Ep|].
  exact (proj2 (proj2 (offsets_after_detection image_footer_first false))
               200 0 Eh Ep).
Defined.

(** C4 as stated fails: a footer layout placed before the header anchor is
    found at index 0 while the header is found at index 200. *)
Lemma footer_found_before_header :
  ~ (forall (f : list byte) (df : bool) (h p : nat),
        header (offsets (self (fst (detect_offsets df (fresh f))))) = Some h ->
        footer (offsets (self (fst (detect_offsets df (fresh f))))) = Some p ->
        h < p).
Proof.
  intros H.
  assert (Hlt : 200 < 0).
  { apply (H image_footer_first false); vm_compute; reflexivity. }
  inversion Hlt.
Qed.

(** ** Counting and finding occurrences *)

Lemma filter_through_map {A C : Type} (g : A -> C) (p : C -> bool) (l : list A) :
  filter p (map g l) = map g (filter (fun x => p (g x)) l).
Proof.
  induction l as [|x l IH]; simpl; [reflexivity|].
  destruct (p (g x)); simpl; now rewrite IH.
Qed.

Lemma filter_none {A : Type} (p : A -> bool) (l : list A) :
  (forall x, In x l -> p x = false) -> filter p l = [].
Proof.
  induction l as [|x l IH]; intros H; simpl; [reflexivity|].
  rewrite (H x (or_introl eq_refl)). apply IH. intros y Hy. apply H. now right.
Qed.

Lemma filter_twice {A : Type} (p q : A -> bool) (l : list A) :
  filter q (filter p l) = filter (fun x => p x && q x) l.
Proof.
  induction l as [|x l IH]; simpl; [reflexivity|].
  destruct (p x); simpl; [destruct (q x)|]; now rewrite IH.
Qed.

Lemma seq_from (lo n : nat) : seq lo n = map (Nat.add lo) (seq 0 n).
Proof.
  revert lo. induction n as [|n IH]; intros lo; [reflexivity|].
  cbn [seq map]. rewrite Nat.add_0_r. f_equal.
  rewrite (IH (S lo)), <- seq_shift, map_map.
  apply map_ext. intros i. lia.
Qed.

Lemma filter_seq_beyond (p : nat -> bool) (m n : nat) :
  m <= n -> (forall i, m <= i -> p i = false) ->
  filter p (seq 0 n) = filter p (seq 0 m).
Proof.
  intros Hle Hp.
  replace n with (m + (n - m)) by lia.
  rewrite seq_app, filter_app, (filter_none p (seq (0 + m) (n - m))).
  - now rewrite app_nil_r.
  - intros i [Hi _]%in_seq. apply Hp. lia.
Qed.

Lemma hd_error_map {A C : Type} (g : A -> C) (l : list A) :
  hd_error (map g l) = option_map g (hd_error l).
Proof. destruct l; reflexivity. Qed.

Lemma app_prefix_shorter {A : Type} (a b x y : list A) :
  a ++ x = b ++ y -> length b <= length a -> exists t, a = b ++ t.
Proof.
  revert b. induction a as [|u a IH]; intros [|v b] H Hl.
  - exists []. reflexivity.
  - simpl in Hl. lia.
  - eexists. reflexivity.
  - simpl in H, Hl. inversion H; subst v.
    destruct (IH b H2) as [t Ht]; [lia|].
    exists t. now rewrite Ht.
Qed.

Lemma startswith_nil (sub : list byte) : sub <> [] -> startswith [] sub = false.
Proof. destruct sub; [contradiction | reflexivity]. Qed.

Lemma bytes_count_nonempty (s sub : list byte) (lo hi : nat) :
  sub <> [] -> bytes_count s sub lo hi = count_scan sub 0 (bytes_slice s lo hi).
Proof. destruct sub; [contradiction | reflexivity]. Qed.

Section Counting.

Variable sub : list byte.
Hypothesis sub_nonempty : sub <> [].
Hypothesis sub_overlap_free : overlap_free sub = true.

Lemma occurs_at_beyond (t : list byte) (i : nat) :
  length t <= i -> occurs_at sub t i = false.
Proof.
  intros H. unfold occurs_at. rewrite skipn_all2 by exact H.
  now apply startswith_nil.
Qed.

Lemma startswith_firstn (v : list byte) (m : nat) :
  startswith (firstn m v) sub = startswith v sub && (length sub <=? m).
Proof.
  destruct (startswith v sub) eqn:Hv; cbn [andb].
  - apply startswith_true in Hv as [r ->].
    destruct (length sub <=? m) eqn:Hm.
    + apply Nat.leb_le in Hm. apply startswith_true.
      rewrite firstn_app, firstn_all2 by exact Hm. eauto.
    + apply Nat.leb_gt in Hm.
      destruct (startswith (firstn m (sub ++ r)) sub) eqn:E; [|reflexivity].
      apply startswith_length in E.
      pose proof (firstn_le_length m (sub ++ r)). lia.
  - destruct (startswith (firstn m v) sub) eqn:E; [|reflexivity].
    apply startswith_true in E as [r Hr].
    assert (Hv' : startswith v sub = true).
    { apply startswith_true. exists (r ++ skipn m v).
      rewrite app_assoc, <- Hr. symmetry. apply firstn_skipn. }
    congruence.
Qed.

(** An occurrence that starts inside another one would make a suffix of
    [sub] a prefix of [sub]. *)
Lemma no_overlap (s : list byte) (j : nat) :
  startswith s sub = true -> 0 < j < length sub ->
  occurs_at sub s j = false.
Proof.
  intros [r1 ->]%startswith_true Hj.
  destruct (occurs_at sub (sub ++ r1) j) eqn:E; [|reflexivity].
  unfold occurs_at in E. apply startswith_true in E as [r2 Hr2].
  rewrite skipn_app in Hr2.
  assert (Hshort : length (skipn j sub) <= length sub)
    by (rewrite length_skipn; lia).
  symmetry in Hr2.
  destruct (app_prefix_shorter _ _ _ _ Hr2 Hshort) as [t Ht].
  assert (Hb : startswith sub (skipn j sub) = true)
    by (apply startswith_true; eauto).
  pose proof sub_overlap_free as Hfree.
  unfold overlap_free in Hfree.
  rewrite forallb_forall in Hfree.
  specialize (Hfree j).
  rewrite Hb in Hfree.
  assert (Hin : In j (seq 1 (length sub - 1))) by (apply in_seq; lia).
  specialize (Hfree Hin). discriminate.
Qed.

Lemma positions_cons (c : byte) (t : list byte) :
  positions sub (c :: t) =
  (if startswith (c :: t) sub then [0] else []) ++ map S (positions sub t).
Proof.
  unfold positions. cbn [length seq filter].
  change (occurs_at sub (c :: t) 0) with (startswith (c :: t) sub).
  rewrite <- seq_shift, filter_through_map.
  destruct (startswith (c :: t) sub); reflexivity.
Qed.

Lemma count_scan_positions :
  forall t k,
    (forall i, i < k -> occurs_at sub t i = false) ->
    count_scan sub k t = length (positions sub t).
Proof.
  induction t as [|c t IH]; intros k Hk; [reflexivity|].
  rewrite positions_cons, length_app, length_map.
  cbn [count_scan]. destruct k as [|k].
  - destruct (startswith (c :: t) sub) eqn:E.
    + cbn [length Nat.add]. f_equal. apply IH.
      intros i Hi.
      change (occurs_at sub t i) with (occurs_at sub (c :: t) (S i)).
      apply no_overlap; [exact E | lia].
    + cbn [length Nat.add]. apply IH. intros i Hi. lia.
  - assert (E : startswith (c :: t) sub = false) by (apply (Hk 0); lia).
    rewrite E. cbn [length Nat.add]. apply IH.
    intros i Hi.
    change (occurs_at sub t i) with (occurs_at sub (c :: t) (S i)).
    apply Hk. lia.
Qed.

Lemma find_scan_positions :
  forall t pos,
    find_scan sub pos t = option_map (Nat.add pos) (hd_error (positions sub t)).
Proof.
  induction t as [|c t IH]; intros pos.
  - cbn [find_scan]. now rewrite startswith_nil.
  - rewrite positions_cons. cbn [find_scan].
    destruct (startswith (c :: t) sub).
    + cbn. f_equal. lia.
    + cbn [app]. rewrite hd_error_map, IH.
      destruct (hd_error (positions sub t)); cbn; [f_equal; lia | reflexivity].
Qed.

Lemma occurs_at_slice (c : list byte) (lo hi i : nat) :
  i < hi - lo ->
  occurs_at sub (bytes_slice c lo hi) i =
  occurs_at sub c (lo + i) && (lo + i + length sub <=? hi).
Proof.
  intros Hi. unfold occurs_at, bytes_slice.
  rewrite skipn_firstn_comm, skipn_skipn, startswith_firstn.
  rewrite (Nat.add_comm i lo). f_equal.
  destruct (length sub <=? hi - lo - i) eqn:E.
  - apply Nat.leb_le in E. symmetry. apply Nat.leb_le. lia.
  - apply Nat.leb_gt in E. symmetry. apply Nat.leb_gt. lia.
Qed.

Lemma positions_slice (c : list byte) (lo hi : nat) :
  map (Nat.add lo) (positions sub (bytes_slice c lo hi)) =
  occurrences sub c lo hi.
Proof.
  unfold positions, occurrences.
  rewrite (seq_from lo), filter_through_map. f_equal.
  rewrite <- (filter_seq_beyond _ (length (bytes_slice c lo hi)) (hi - lo)).
  - apply filter_ext_in. intros i [_ Hi]%in_seq.
    apply occurs_at_slice. lia.
  - unfold bytes_slice. apply firstn_le_length.
  - intros i Hi. now apply occurs_at_beyond.
Qed.

(** [bytes.count] counts the occurrences within the range. *)
Lemma bytes_count_occurrences (c : list byte) (lo hi : nat) :
  bytes_count c sub lo hi = length (occurrences sub c lo hi).
Proof.
  rewrite bytes_count_nonempty by exact sub_nonempty.
  rewrite <- positions_slice, length_map.
  apply count_scan_positions. intros i Hi. lia.
Qed.

(** [bytes.find] returns the first of them. *)
Lemma bytes_find_occurrences (c : list byte) (lo hi : nat) :
  bytes_find c sub lo hi = hd_error (occurrences sub c lo hi).
Proof.
  unfold bytes_find.
  rewrite <- positions_slice, hd_error_map, <- find_scan_positions.
  destruct (Nat.min hi (length c) <? lo) eqn:E; [|reflexivity].
  apply Nat.ltb_lt in E.
  assert (Hlen : length (bytes_slice c lo hi) = 0).
  { unfold bytes_slice. rewrite length_firstn, length_skipn. lia. }
  destruct (bytes_slice c lo hi); [|discriminate Hlen].
  cbn [find_scan]. now rewrite startswith_nil.
Qed.

End Counting.

(** ** The sanity check *)

Lemma npds_nonempty : NPDS <> [].
Proof. discriminate. Qed.

Lemma npde_nonempty : NPDE <> [].
Proof. discriminate. Qed.

Lemma npds_overlap_free : overlap_free NPDS = true.
Proof. reflexivity. Qed.

Lemma npde_overlap_free : overlap_free NPDE = true.
Proof. reflexivity. Qed.

(** The two markers differ in their last digit, so no index starts both. *)
Lemma markers_exclusive (c : list byte) (i : nat) :
  occurs_at NPDS c i = true -> occurs_at NPDE c i = false.
Proof.
  unfold occurs_at. intros [r1 H1]%startswith_true.
  destruct (startswith (skipn i c) NPDE) eqn:E; [|reflexivity].
  apply startswith_true in E as [r2 H2].
  rewrite H1 in H2. discriminate H2.
Qed.

Lemma single_npds_position (c : list byte) (h f p : nat) :
  occurrences NPDS c h f = [p] ->
  h <= p < f /\ occurs_at NPDS c p = true.
Proof.
  intros H.
  assert (Hin : In p (occurrences NPDS c h f)) by (rewrite H; now left).
  unfold occurrences in Hin.
  apply filter_In in Hin as [[Hlo Hhi]%in_seq [Hocc _]%andb_true_iff].
  split; [lia | exact Hocc].
Qed.

(** Counting NPDE from the NPDS onwards counts the NPDE that lie after it. *)
Lemma npde_from_npds (c : list byte) (h f p : nat) :
  occurrences NPDS c h f = [p] ->
  occurrences NPDE c p f =
  filter (fun i => p <? i) (occurrences NPDE c h f).
Proof.
  intros [Hp Hocc]%single_npds_position.
  unfold occurrences at 2.
  replace (f - h) with ((p - h) + (f - p)) by lia.
  rewrite seq_app, filter_app, filter_app.
  replace (h + (p - h)) with p by lia.
  rewrite !filter_twice.
  rewrite filter_none.
  - cbn [app]. unfold occurrences. apply filter_ext_in.
    intros i [Hi _]%in_seq.
    destruct (Nat.eq_dec i p) as [->|Hne].
    + rewrite (markers_exclusive c p Hocc). reflexivity.
    + assert (E : (p <? i) = true) by (apply Nat.ltb_lt; lia).
      rewrite E. now rewrite andb_true_r.
  - intros i [_ Hi]%in_seq.
    assert (E : (p <? i) = false) by (apply Nat.ltb_ge; lia).
    rewrite E. apply andb_false_r.
Qed.

Lemma run_sanity_tests_unset (st : State) (ign : bool) :
  header (offsets (self st)) = None \/ footer (offsets (self st)) = None ->
  run_sanity_tests ign st =
  (st, Raise (CheckException "Header/footer offsets not set before sanity checks")).
Proof.
  intros H. unfold run_sanity_tests, bind, get_offsets.
  destruct (header (offsets (self st))), (footer (offsets (self st)));
    try reflexivity.
  destruct H; discriminate.
Qed.

Lemma try_except_raise {A : Type} (body : M A) (handler : string -> M A)
      (st st' : State) (msg : string) :
  body st = (st', Raise (CheckException msg)) ->
  try_except body handler st = handler msg st'.
Proof. intros H. unfold try_except. now rewrite H. Qed.

Lemma try_except_ok {A : Type} (body : M A) (handler : string -> M A)
      (st st' : State) (a : A) :
  body st = (st', Ok a) -> try_except body handler st = (st', Ok a).
Proof. intros H. unfold try_except. now rewrite H. Qed.

(** The protected block, in terms of the three rules. *)
Lemma sanity_rules_eq (st : State) (h f : nat) :
  sanity_rules h f st =
  match sanity_violation (content (self st)) h f with
  | Some msg => (st, Raise (CheckException msg))
  | None => (st, Ok tt)
  end.
Proof.
  unfold sanity_rules, bind at 1, get_content.
  rewrite (bytes_count_occurrences NPDS npds_nonempty npds_overlap_free).
  rewrite (bytes_count_occurrences NPDE npde_nonempty npde_overlap_free).
  rewrite (bytes_find_occurrences NPDS npds_nonempty).
  unfold sanity_violation, rule_one_npds, rule_three_npde,
    rule_two_npde_after_npds.
  destruct (length (occurrences NPDS (content (self st)) h f) =? 1) eqn:E1;
    cbn [negb]; [|reflexivity].
  destruct (length (occurrences NPDE (content (self st)) h f) =? 3) eqn:E3;
    cbn [negb]; [|reflexivity].
  apply Nat.eqb_eq in E1.
  destruct (occurrences NPDS (content (self st)) h f) as [|p [|q l]] eqn:Eo;
    try discriminate E1.
  cbn [hd_error].
  rewrite (bytes_count_occurrences NPDE npde_nonempty npde_overlap_free).
  rewrite (npde_from_npds _ h f p Eo).
  destruct (length (filter (fun i => p <? i)
                      (occurrences NPDE (content (self st)) h f)) =? 2);
    reflexivity.
Qed.

(** The method, in terms of the three rules. *)
Lemma run_sanity_tests_set (st : State) (ign : bool) (h f : nat) :
  header (offsets (self st)) = Some h ->
  footer (offsets (self st)) = Some f ->
  run_sanity_tests ign st =
  match sanity_violation (content (self st)) h f with
  | Some msg => violation_outcome ign st msg
  | None =>
      ({| self := self st; stdout := stdout st ++ ["No problems found."%string];
          written := written st |}, Ok tt)
  end.
Proof.
  intros Hh Hf.
  unfold run_sanity_tests, bind at 1, get_offsets. rewrite Hh, Hf.
  pose proof (sanity_rules_eq st h f) as Hr.
  destruct (sanity_violation (content (self st)) h f) as [msg|].
  - erewrite try_except_raise by (apply bind_raise; exact Hr).
    unfold violation_outcome. destruct ign; [|reflexivity].
    unfold bind, print. cbn [self stdout written].
    now rewrite <- app_assoc.
  - erewrite try_except_ok; [reflexivity|].
    erewrite bind_ok by exact Hr. reflexivity.
Qed.

(** C5 (as amended). With both offsets set and violations fatal, the sanity
    check ends normally (printing "No problems found.") exactly when, within
    [[header, footer)], NPDS occurs once, NPDE occurs three times and two of
    the NPDE occurrences lie after the NPDS occurrence.  Otherwise it raises
    a [CheckException] for the first rule that fails: the messages of the
    first two rules carry the observed count, the message of the third rule
    names the rule only. *)
Theorem sanity_check_exact (st : State) (h f : nat) :
  header (offsets (self st)) = Some h ->
  footer (offsets (self st)) = Some f ->
  (run_sanity_tests false st =
   ({| self := self st; stdout := stdout st ++ ["No problems found."%string];
       written := written st |}, Ok tt)
   <->
   rule_one_npds (content (self st)) h f = true /\
   rule_three_npde (content (self st)) h f = true /\
   rule_two_npde_after_npds (content (self st)) h f = true)
  /\
  (rule_one_npds (content (self st)) h f = false ->
   run_sanity_tests false st =
   (st, Raise (CheckException
      ("Expected only one 'NPDS' marker between header and footer, found "
       ++ str (length (occurrences NPDS (content (self st)) h f))))))
  /\
  (rule_one_npds (content (self st)) h f = true ->
   rule_three_npde (content (self st)) h f = false ->
   run_sanity_tests false st =
   (st, Raise (CheckException
      ("Expected three 'NPDE' markers between header and footer, found "
       ++ str (length (occurrences NPDE (content (self st)) h f))
       ++ " (possible vBIOS without UEFI support)"))))
  /\
  (rule_one_npds (content (self st)) h f = true ->
   rule_three_npde (content (self st)) h f = true ->
   rule_two_npde_after_npds (content (self st)) h f = false ->
   run_sanity_tests false st =
   (st, Raise (CheckException
      "Expected two 'NPDE' markers after the 'NPDS' marker"))).
Proof.
  intros Hh Hf.
  rewrite (run_sanity_tests_set st false h f Hh Hf).
  unfold sanity_violation, violation_outcome.
  destruct (rule_one_npds (content (self st)) h f),
           (rule_three_npde (content (self st)) h f),
           (rule_two_npde_after_npds (content (self st)) h f);
    cbn [negb];
    (split; [split; [intros H; try discriminate H; auto
                    | intros (H1 & H2 & H3); try discriminate; reflexivity]|]);
    repeat split; intros; try discriminate; reflexivity.
Qed.

(** On the scenario image the three rules hold and the check passes. *)
Lemma sanity_check_exact_witness :
  run_sanity_tests false (fst (detect_offsets false (fresh image_gtx10))) =
  ({| self := self (fst (detect_offsets false (fresh image_gtx10)));
      stdout := stdout (fst (detect_offsets false (fresh image_gtx10)))
                ++ ["No problems found."%string];
      written := written (fst (detect_offsets false (fresh image_gtx10))) |},
   Ok tt).
Proof.
  assert (Hh : header (offsets (self (fst (detect_offsets false
                 (fresh image_gtx10))))) = Some 0)
    by (vm_compute; reflexivity).
  assert (Hf : footer (offsets (self (fst (detect_offsets false
                 (fresh image_gtx10))))) = Some 100)
    by (vm_compute; reflexivity).
  apply (proj2 (proj1 (sanity_check_exact _ 0 100 Hh Hf))).
  repeat split; vm_compute; reflexivity.
Defined.

(** C5 as stated fails in its last part: the exception of the third rule
    does not determine the observed count.  With three NPDE in all, one
    NPDE after the NPDS and three NPDE after the NPDS raise the same
    exception. *)
Lemma third_rule_hides_count :
  ~ (exists observed : exn -> nat,
        forall (st : State) (h f p : nat) (e : exn),
          header (offsets (self st)) = Some h ->
          footer (offsets (self st)) = Some f ->
          occurrences NPDS (content (self st)) h f = [p] ->
          rule_three_npde (content (self st)) h f = true ->
          snd (run_sanity_tests false st) = Raise e ->
          observed e =
          length (filter (fun i => p <? i)
                         (occurrences NPDE (content (self st)) h f))).
Proof.
  intros [observed H].
  pose (e := CheckException "Expected two 'NPDE' markers after the 'NPDS' marker").
  assert (H1 : observed e = 1).
  { apply (H (fst (detect_offsets false (fresh image_one_after))) 0 70 54 e);
      vm_compute; reflexivity. }
  assert (H3 : observed e = 3).
  { apply (H (fst (detect_offsets false (fresh image_three_after))) 0 70 38 e);
      vm_compute; reflexivity. }
  congruence.
Qed.

(** C10. The sanity check raises "Header/footer offsets not set before
    sanity checks" whenever one of the offsets is unset, whatever the ignore
    flag; with both offsets set, the ignore flag turns every violation of the
    three marker rules into two printed lines and a normal return. *)
Theorem unset_offsets_raise_despite_ignore (st : State) (ign : bool) :
  (header (offsets (self st)) = None \/ footer (offsets (self st)) = None ->
   run_sanity_tests ign st =
   (st, Raise (CheckException
                 "Header/footer offsets not set before sanity checks")))
  /\
  (forall h f,
      header (offsets (self st)) = Some h ->
      footer (offsets (self st)) = Some f ->
      exists st',
        run_sanity_tests true st = (st', Ok tt) /\
        self st' = self st /\
        (stdout st' = stdout st ++ ["No problems found."%string] \/
         exists msg,
           sanity_violation (content (self st)) h f = Some msg /\
           stdout st' =
           stdout st ++ [("Encountered error during sanity check: " ++ msg)%string;
                         "Ignoring..."%string])).
Proof.
  split; [apply run_sanity_tests_unset|].
  intros h f Hh Hf.
  rewrite (run_sanity_tests_set st true h f Hh Hf).
  destruct (sanity_violation (content (self st)) h f) as [msg|].
  - eexists. split; [reflexivity|]. split; [reflexivity|].
    right. exists msg. split; reflexivity.
  - eexists. split; [reflexivity|]. split; [reflexivity|]. now left.
Qed.

(** A freshly loaded image has no offsets: the check raises although the
    ignore flag is set. *)
Lemma unset_offsets_raise_despite_ignore_witness :
  run_sanity_tests true (fresh image_gtx10) =
  (fresh image_gtx10,
   Raise (CheckException "Header/footer offsets not set before sanity checks")).
Proof.
  apply (proj1 (unset_offsets_raise_despite_ignore (fresh image_gtx10) true)).
  left. reflexivity.
Defined.

(** The offsets a successful detection reports lie inside the hex view. *)
Lemma reported_offsets_in_bounds (f : list byte) (df : bool) (st : State) :
  detect_offsets df (fresh f) = (st, Ok tt) ->
  exists h,
    header (offsets (self st)) = Some h /\
    h <= length (content (self st)) /\
    (df = false ->
     exists p, footer (offsets (self st)) = Some p /\
               p <= length (content (self st))).
Proof.
  intros Hrun.
  destruct (detect_offsets_cases (fresh f) df)
    as [[_ E]|(h & Hh & [[Hdf E]|[(_ & _ & E)|(Hdf & pre & gap & name & post & p & Hcat & _ & Hp & E)]])];
    rewrite E in Hrun; inversion Hrun; subst st; clear Hrun;
    cbn [self content offsets header footer fresh VBIOSROM_init];
    apply leftmost_match_matches, header_span in Hh as (_ & Hle & _);
    cbn [self content fresh VBIOSROM_init] in Hle.
  - exists h. split; [reflexivity|]. split; [lia|]. congruence.
  - apply leftmost_match_matches, footer_span in Hp as (_ & Hple & _).
    cbn [self content fresh VBIOSROM_init] in Hple.
    exists h. split; [reflexivity|]. split; [lia|].
    intros _. exists p. split; [reflexivity | lia].
Qed.

(** ** Splicing *)

Lemma unhexlify_pairs_length (s : list byte) :
  forall data,
    Nat.odd (length s) = false ->
    binascii.unhexlify_pairs s = Some data -> length s = 2 * length data.
Proof.
  induction s as [|x|x y l IH] using pair_induction; intros data Hodd H.
  - inversion H. reflexivity.
  - discriminate Hodd.
  - cbn [binascii.unhexlify_pairs] in H.
    destruct ((16 <=? binascii.digit_value x)%N || (16 <=? binascii.digit_value y)%N);
      [discriminate|].
    destruct (binascii.unhexlify_pairs l) as [out|] eqn:E; [|discriminate].
    inversion H; subst data.
    change (Nat.odd (length (x :: y :: l))) with (Nat.odd (length l)) in Hodd.
    cbn [length]. rewrite (IH out Hodd eq_refl). lia.
Qed.

Lemma unhexlify_length (s data : list byte) :
  binascii.unhexlify s = inr data -> length s = 2 * length data.
Proof.
  unfold binascii.unhexlify.
  destruct (Nat.odd (length s)) eqn:Hodd; [discriminate|].
  destruct (binascii.unhexlify_pairs s) as [out|] eqn:E; [|discriminate].
  intros H; inversion H; subst out.
  now apply unhexlify_pairs_length.
Qed.

(** The method, once the header offset is known. *)
Lemma get_spliced_rom_eq (st : State) (df : bool) (h : nat) :
  header (offsets (self st)) = Some h ->
  get_spliced_rom df st =
  let decode (spliced : list byte) : State * result (list byte) :=
    match binascii.unhexlify spliced with
    | inr data => (st, Ok data)
    | inl e =>
        (st, Raise (CheckException
                      ("Failed to unhexlify spliced content: " ++ e)))
    end in
  if df then decode (bytes_slice_from (content (self st)) h)
  else
    match footer (offsets (self st)) with
    | Some p => decode (bytes_slice (content (self st)) h p)
    | None =>
        (st, Raise (CheckException "Footer offset not found; cannot splice ROM"))
    end.
Proof.
  intros Hh. unfold get_spliced_rom, bind at 1, get_offsets.
  unfold bind at 1, get_content. rewrite Hh.
  destruct df; cbn [negb].
  - unfold bind, ret.
    destruct (binascii.unhexlify (bytes_slice_from (content (self st)) h));
      reflexivity.
  - destruct (footer (offsets (self st))) as [p|]; [|reflexivity].
    unfold bind, ret.
    destruct (binascii.unhexlify (bytes_slice (content (self st)) h p));
      reflexivity.
Qed.




(** C6 (as amended). In a run where detection and then splicing succeed, the
    output is half as long as the extracted hexadecimal substring.  Without
    the footer that is [(len(view) - header) / 2] bytes.  With the footer it
    is [(footer - header) / 2] bytes when the header does not lie after the
    footer, and no byte at all when it does, the slice being empty then. *)
Theorem spliced_length (f : list byte) (df : bool) (st st2 st' : State)
        (data : list byte) :
  detect_offsets df (fresh f) = (st, Ok tt) ->
  self st2 = self st ->
  get_spliced_rom df st2 = (st', Ok data) ->
  exists h,
    header (offsets (self st)) = Some h /\
    if df
    then
      binascii.unhexlify (bytes_slice_from (content (self st)) h) = inr data /\
      Z.of_nat (length data) =
      ((Z.of_nat (length (content (self st))) - Z.of_nat h) / 2)%Z
    else
      exists p,
        footer (offsets (self st)) = Some p /\
        binascii.unhexlify (bytes_slice (content (self st)) h p) = inr data /\
        Z.of_nat (length data) = (Z.max 0 (Z.of_nat p - Z.of_nat h) / 2)%Z /\
        (h <= p ->
         Z.of_nat (length data) = ((Z.of_nat p - Z.of_nat h) / 2)%Z) /\
        (p < h -> data = []).
Proof.
  intros Hrun Hself Hsplice.
  destruct (reported_offsets_in_bounds f df st Hrun) as (h & Hh & Hhb & Hfoot).
  exists h. split; [exact Hh|].
  rewrite (get_spliced_rom_eq st2 df h) in Hsplice by (now rewrite Hself).
  cbv zeta in Hsplice. rewrite Hself in Hsplice.
  destruct df.
  - destruct (binascii.unhexlify (bytes_slice_from (content (self st)) h))
      as [e|d] eqn:E; inversion Hsplice; subst d.
    split; [reflexivity|].
    apply unhexlify_length in E. unfold bytes_slice_from in E.
    rewrite length_skipn in E.
    replace (Z.of_nat (length (content (self st))) - Z.of_nat h)%Z
      with (Z.of_nat (length data) * 2)%Z by lia.
    now rewrite Z.div_mul.
  - destruct (Hfoot eq_refl) as (p & Hp & Hpb).
    exists p. split; [exact Hp|]. rewrite Hp in Hsplice.
    destruct (binascii.unhexlify (bytes_slice (content (self st)) h p))
      as [e|d] eqn:E; inversion Hsplice; subst d.
    split; [reflexivity|].
    apply unhexlify_length in E. unfold bytes_slice in E.
    rewrite length_firstn, length_skipn in E.
    split; [|split].
    + replace (Z.max 0 (Z.of_nat p - Z.of_nat h))%Z
        with (Z.of_nat (length data) * 2)%Z by lia.
      now rewrite Z.div_mul.
    + intros Hle.
      replace (Z.of_nat p - Z.of_nat h)%Z
        with (Z.of_nat (length data) * 2)%Z by lia.
      now rewrite Z.div_mul.
    + intros Hlt. destruct data; [reflexivity|]. cbn [length] in E. lia.
Qed.

(** On the scenario image the 50 bytes before the footer are spliced out. *)
Lemma spliced_length_witness :
  exists data,
    get_spliced_rom false (fst (detect_offsets false (fresh image_gtx10))) =
    (fst (detect_offsets false (fresh image_gtx10)), Ok data) /\
    Z.of_nat (length data) = ((100 - 0) / 2)%Z.
Proof.
  exists (sample_anchor ++ sample_filler).
  assert (Hrun : detect_offsets false (fresh image_gtx10) =
                 (fst (detect_offsets false (fresh image_gtx10)), Ok tt))
    by (vm_compute; reflexivity).
  assert (Hsplice :
            get_spliced_rom false (fst (detect_offsets false (fresh image_gtx10))) =
            (fst (detect_offsets false (fresh image_gtx10)),
             Ok (sample_anchor ++ sample_filler)))
    by (vm_compute; reflexivity).
  split; [exact Hsplice|].
  destruct (spliced_length image_gtx10 false _ _ _ _ Hrun eq_refl Hsplice)
    as (h & Hh & p & Hp & _ & _ & Hlen & _).
  assert (h = 0) by (vm_compute in Hh; congruence).
  assert (p = 100) by (vm_compute in Hp; congruence).
  subst h p. apply Hlen. lia.
Defined.

(** C6 as stated fails: when the footer layout precedes the header anchor,
    detection succeeds with header 200 and footer 0, the slice is empty and
    splicing succeeds with no byte, which is not [(0 - 200) / 2]. *)
Lemma empty_splice_when_footer_first :
  ~ (forall (f : list byte) (st st2 st' : State) (data : list byte) (h p : nat),
        detect_offsets false (fresh f) = (st, Ok tt) ->
        self st2 = self st ->
        get_spliced_rom false st2 = (st', Ok data) ->
        header (offsets (self st)) = Some h ->
        footer (offsets (self st)) = Some p ->
        Z.of_nat (length data) = ((Z.of_nat p - Z.of_nat h) / 2)%Z).
Proof.
  intros H.
  assert (Hlen : Z.of_nat (length (@nil byte)) = ((Z.of_nat 0 - Z.of_nat 200) / 2)%Z).
  { apply (H image_footer_first
             (fst (detect_offsets false (fresh image_footer_first)))
             (fst (detect_offsets false (fresh image_footer_first)))
             (fst (detect_offsets false (fresh image_footer_first))));
      vm_compute; reflexivity. }
  vm_compute in Hlen. discriminate Hlen.
Qed.

(** That run is a run of [main]: with the sanity violations ignored, the
    program writes the empty output. *)
Lemma main_writes_empty_rom :
  let r := main {| ignore_sanity_check := true; disable_footer_strip := false;
                   skip_the_very_important_warning := true |}
                image_footer_first "" in
  snd r = Ok tt /\ written (fst r) = Some [].
Proof. vm_compute. split; reflexivity. Qed.

(** ** The GTX 10XX scenario *)

Lemma footer_needs_anchor (gap : nat) (c : list byte) (q : nat) :
  occurs_at (B "564e") c q = false ->
  matches_at (footer_pattern gap) c q = false.
Proof.
  intros Hno. destruct (matches_at (footer_pattern gap) c q) eqn:E;
    [|reflexivity].
  apply footer_span in E as (_ & _ & Ha). congruence.
Qed.

Lemma anchor_free_before_spec (c : list byte) (n q : nat) :
  anchor_free_before c n = true -> q < n -> occurs_at (B "564e") c q = false.
Proof.
  unfold anchor_free_before. rewrite forallb_forall.
  intros H Hq. apply negb_true_iff, H, in_seq. lia.
Qed.

Lemma hexlify_anchor (w : byte) (w10 : list byte) :
  binascii.hexlify (anchor_bytes w w10) =
  B "55aa" ++ binascii.hexlify [w] ++ B "eb" ++ binascii.hexlify w10
  ++ B "564944454f".
Proof. unfold anchor_bytes. rewrite !hexlify_app. reflexivity. Qed.

Lemma hexlify_footer (g1 g2 : list byte) :
  binascii.hexlify (footer_bytes g1 g2) =
  B "564e" ++ binascii.hexlify g1 ++ NPDS ++ binascii.hexlify g2 ++ NPDE ++ [].
Proof. unfold footer_bytes. rewrite !hexlify_app. reflexivity. Qed.

Section Scenario.

Variables (w : byte) (w10 filler g1 g2 : list byte).
Hypothesis w10_length : length w10 = 10.
Hypothesis g1_length : length g1 = 174.
Hypothesis g2_length : length g2 = 28.

Local Notation "'image'" := (scenario_image w w10 filler g1 g2).
Local Notation "'c'" := (binascii.hexlify (scenario_image w w10 filler g1 g2)).
Local Notation "'F'" := (scenario_footer_index filler).

Hypothesis filler_anchor_free : anchor_free_before c F = true.

Lemma scenario_split :
  c = binascii.hexlify (anchor_bytes w w10 ++ filler)
      ++ binascii.hexlify (footer_bytes g1 g2).
Proof. unfold scenario_image. now rewrite app_assoc, hexlify_app. Qed.

Lemma scenario_prefix_length :
  length (binascii.hexlify (anchor_bytes w w10 ++ filler)) = F.
Proof.
  rewrite hexlify_length, length_app. unfold anchor_bytes, scenario_footer_index.
  rewrite !length_app, w10_length. reflexivity.
Qed.

Lemma scenario_length : length c = F + 424.
Proof.
  rewrite scenario_split, length_app, scenario_prefix_length.
  rewrite hexlify_length. unfold footer_bytes.
  rewrite !length_app, g1_length, g2_length. reflexivity.
Qed.

Lemma scenario_header : leftmost_match HEADER_REGEX c 0 = true.
Proof.
  unfold leftmost_match. rewrite matches_at_0. cbn [seq forallb].
  rewrite andb_true_r.
  assert (Hm : match_here HEADER_REGEX c =
               Some (binascii.hexlify filler
                     ++ binascii.hexlify (footer_bytes g1 g2))).
  { apply header_template.
    exists (binascii.hexlify [w]), (binascii.hexlify w10).
    split.
    - unfold scenario_image. rewrite !hexlify_app, hexlify_anchor.
      now rewrite <- !app_assoc.
    - rewrite !hexlify_length, w10_length.
      repeat split; try reflexivity; apply hexlify_in_hex_class. }
  now rewrite Hm.
Qed.

Lemma scenario_footer : leftmost_match (footer_pattern 348) c F = true.
Proof.
  unfold leftmost_match. apply andb_true_iff. split.
  - apply matches_at_true. split; [rewrite scenario_length; lia|].
    exists [].
    rewrite scenario_split, skipn_app, scenario_prefix_length, Nat.sub_diag.
    rewrite skipn_all2 by (rewrite scenario_prefix_length; lia).
    cbn [skipn app].
    apply footer_template.
    exists (binascii.hexlify g1), (binascii.hexlify g2).
    split; [apply hexlify_footer|].
    rewrite !hexlify_length, g1_length, g2_length.
    repeat split; try reflexivity; apply hexlify_in_hex_class.
  - apply forallb_forall. intros q [_ Hq]%in_seq.
    apply negb_true_iff, footer_needs_anchor.
    apply (anchor_free_before_spec c F); [exact filler_anchor_free | lia].
Qed.

Lemma scenario_no_longer_gap (gap : nat) :
  348 < gap -> matches_anywhere (footer_pattern gap) c = false.
Proof.
  intros Hgap. unfold matches_anywhere.
  destruct (existsb (matches_at (footer_pattern gap) c) (seq 0 (S (length c))))
    eqn:E; [|reflexivity].
  apply existsb_exists in E as (q & _ & Hq).
  pose proof (footer_span gap c q Hq) as (_ & Hle & Ha).
  rewrite scenario_length in Hle.
  assert (Hlt : q < F) by lia.
  rewrite (anchor_free_before_spec c F q filler_anchor_free Hlt) in Ha.
  discriminate Ha.
Qed.

Lemma scenario_detection (out : list string) (wr : option (list byte)) :
  detect_offsets false
    {| self := VBIOSROM_init image; stdout := out; written := wr |} =
  ({| self := {| content := c;
                 offsets := {| header := Some 0; footer := Some F |} |};
      stdout := out ++ ["ROM footer for GTX 10XX found!"%string];
      written := wr |}, Ok tt).
Proof.
  apply (detect_offsets_footer_found
           {| self := VBIOSROM_init image; stdout := out; written := wr |}
           0 scenario_header
           (firstn 4 FOOTER_GAPS) 348 "GTX 10XX"%string (skipn 5 FOOTER_GAPS) F).
  - reflexivity.
  - cbn [firstn FOOTER_GAPS none_matches forallb fst].
    change (content (self {| self := VBIOSROM_init image; stdout := out;
                             written := wr |})) with c.
    rewrite !scenario_no_longer_gap by lia. reflexivity.
  - exact scenario_footer.
Qed.

Hypothesis one_npds : rule_one_npds c 0 F = true.
Hypothesis three_npde : rule_three_npde c 0 F = true.
Hypothesis two_npde_after : rule_two_npde_after_npds c 0 F = true.

Lemma scenario_sanity (ign : bool) (out : list string) (wr : option (list byte)) :
  run_sanity_tests ign
    {| self := {| content := c;
                  offsets := {| header := Some 0; footer := Some F |} |};
       stdout := out; written := wr |} =
  ({| self := {| content := c;
                 offsets := {| header := Some 0; footer := Some F |} |};
      stdout := out ++ ["No problems found."%string]; written := wr |}, Ok tt).
Proof.
  rewrite (run_sanity_tests_set
             {| self := {| content := c;
                           offsets := {| header := Some 0; footer := Some F |} |};
                stdout := out; written := wr |} ign 0 F eq_refl eq_refl).
  cbn [self content stdout written].
  unfold sanity_violation.
  now rewrite one_npds, three_npde, two_npde_after.
Qed.

Lemma scenario_slice :
  bytes_slice c 0 F = binascii.hexlify (anchor_bytes w w10 ++ filler).
Proof.
  unfold bytes_slice. cbn [skipn]. rewrite Nat.sub_0_r.
  rewrite scenario_split, firstn_app, scenario_prefix_length, Nat.sub_diag.
  rewrite firstn_all2 by (rewrite scenario_prefix_length; lia).
  cbn [firstn]. apply app_nil_r.
Qed.

Lemma scenario_splice (out : list string) (wr : option (list byte)) :
  let st := {| self := {| content := c;
                          offsets := {| header := Some 0; footer := Some F |} |};
               stdout := out; written := wr |} in
  get_spliced_rom false st = (st, Ok (anchor_bytes w w10 ++ filler)).
Proof.
  intros st. rewrite (get_spliced_rom_eq st false 0 eq_refl).
  cbn [self content offsets footer st].
  now rewrite scenario_slice, decode_encode.
Qed.

Lemma scenario_main (ign : bool) (answer : string) :
  main {| ignore_sanity_check := ign; disable_footer_strip := false;
          skip_the_very_important_warning := true |} image answer =
  ({| self := {| content := c;
                 offsets := {| header := Some 0; footer := Some F |} |};
      stdout := ["Opening the ROM file..."%string;
                 "Scanning for ROM offsets..."%string;
                 "ROM footer for GTX 10XX found!"%string;
                 "Offsets found!"%string;
                 "Running sanity checks..."%string;
                 "No problems found."%string;
                 "Writing the edited ROM..."%string;
                 "Done!"%string];
      written := Some (anchor_bytes w w10 ++ filler) |}, Ok tt).
Proof.
  unfold main, main_steps.
  cbn [disable_footer_strip ignore_sanity_check
       skip_the_very_important_warning negb].
  erewrite bind_ok by reflexivity.
  erewrite bind_ok by apply scenario_detection.
  erewrite bind_ok by reflexivity.
  erewrite bind_ok
    by (erewrite bind_ok by reflexivity; apply scenario_sanity).
  erewrite bind_ok by apply scenario_splice.
  reflexivity.
Qed.

End Scenario.

(** C9 (as amended). Take a buffer made of the header anchor at offset 0
    ([55aa], one wildcard byte, [eb], ten wildcard bytes, [564944454f]),
    filler, and a "GTX 10XX" footer layout, whose first gap is 348
    hexadecimal digits, that is 174 bytes, and whose second gap is 28 bytes.
    The filler is well formed: the footer anchor [564e] does not occur before
    the footer, and the three marker rules hold before the footer.  Then the
    detector reports the header at hex index 0 and the footer at the start of
    the layout under the name "GTX 10XX", the sanity check passes, splicing
    returns exactly the bytes before the footer (anchor and filler), and
    [main] writes them. *)
Theorem gtx10_scenario (w : byte) (w10 filler g1 g2 : list byte)
        (ign : bool) (answer : string) :
  length w10 = 10 -> length g1 = 174 -> length g2 = 28 ->
  anchor_free_before
    (binascii.hexlify (scenario_image w w10 filler g1 g2))
    (scenario_footer_index filler) = true ->
  rule_one_npds
    (binascii.hexlify (scenario_image w w10 filler g1 g2))
    0 (scenario_footer_index filler) = true ->
  rule_three_npde
    (binascii.hexlify (scenario_image w w10 filler g1 g2))
    0 (scenario_footer_index filler) = true ->
  rule_two_npde_after_npds
    (binascii.hexlify (scenario_image w w10 filler g1 g2))
    0 (scenario_footer_index filler) = true ->
  let image := scenario_image w w10 filler g1 g2 in
  let found :=
    {| content := binascii.hexlify image;
       offsets := {| header := Some 0;
                     footer := Some (scenario_footer_index filler) |} |} in
  detect_offsets false (fresh image) =
  ({| self := found; stdout := ["ROM footer for GTX 10XX found!"%string];
      written := None |}, Ok tt)
  /\
  run_sanity_tests ign
    {| self := found; stdout := ["ROM footer for GTX 10XX found!"%string];
       written := None |} =
  ({| self := found;
      stdout := ["ROM footer for GTX 10XX found!"%string;
                 "No problems found."%string];
      written := None |}, Ok tt)
  /\
  get_spliced_rom false
    {| self := found;
       stdout := ["ROM footer for GTX 10XX found!"%string;
                  "No problems found."%string];
       written := None |} =
  ({| self := found;
      stdout := ["ROM footer for GTX 10XX found!"%string;
                 "No problems found."%string];
      written := None |}, Ok (anchor_bytes w w10 ++ filler))
  /\
  written
    (fst (main {| ignore_sanity_check := ign; disable_footer_strip := false;
                  skip_the_very_important_warning := true |} image answer)) =
  Some (anchor_bytes w w10 ++ filler).
Proof.
  intros L10 Lg1 Lg2 Hfree H1 H3 H2 image found.
  split; [|split; [|split]].
  - exact (scenario_detection w w10 filler g1 g2 L10 Lg1 Lg2 Hfree [] None).
  - exact (scenario_sanity w w10 filler g1 g2 H1 H3 H2 ign
             ["ROM footer for GTX 10XX found!"%string] None).
  - exact (scenario_splice w w10 filler g1 g2 L10 Lg1 Lg2
             ["ROM footer for GTX 10XX found!"%string;
              "No problems found."%string] None).
  - unfold image.
    now rewrite (scenario_main w w10 filler g1 g2 L10 Lg1 Lg2 Hfree H1 H3 H2
                   ign answer).
Qed.

(** The scenario image, with zero wildcards and gaps. *)
Lemma gtx10_scenario_witness :
  detect_offsets false (fresh image_gtx10) =
  ({| self := {| content := binascii.hexlify image_gtx10;
                 offsets := {| header := Some 0; footer := Some 100 |} |};
      stdout := ["ROM footer for GTX 10XX found!"%string];
      written := None |}, Ok tt)
  /\
  written
    (fst (main {| ignore_sanity_check := false; disable_footer_strip := false;
                  skip_the_very_important_warning := true |} image_gtx10 "")) =
  Some (sample_anchor ++ sample_filler).
Proof.
  assert (Hfree : anchor_free_before
                    (binascii.hexlify
                       (scenario_image x00 (repeat x00 10) sample_filler
                          (repeat x00 174) (repeat x00 28)))
                    (scenario_footer_index sample_filler) = true)
    by (vm_compute; reflexivity).
  assert (H1 : rule_one_npds
                 (binascii.hexlify
                    (scenario_image x00 (repeat x00 10) sample_filler
                       (repeat x00 174) (repeat x00 28)))
                 0 (scenario_footer_index sample_filler) = true)
    by (vm_compute; reflexivity).
  assert (H3 : rule_three_npde
                 (binascii.hexlify
                    (scenario_image x00 (repeat x00 10) sample_filler
                       (repeat x00 174) (repeat x00 28)))
                 0 (scenario_footer_index sample_filler) = true)
    by (vm_compute; reflexivity).
  assert (H2 : rule_two_npde_after_npds
                 (binascii.hexlify
                    (scenario_image x00 (repeat x00 10) sample_filler
                       (repeat x00 174) (repeat x00 28)))
                 0 (scenario_footer_index sample_filler) = true)
    by (vm_compute; reflexivity).
  destruct (gtx10_scenario x00 (repeat x00 10) sample_filler
              (repeat x00 174) (repeat x00 28) false ""
              eq_refl (repeat_length x00 174) (repeat_length x00 28)
              Hfree H1 H3 H2)
    as (Hdetect & _ & _ & Hmain).
  split; [exact Hdetect | exact Hmain].
Defined.

(** C9 as stated fails: with a first gap of 348 bytes, and not 348
    hexadecimal digits, no catalog entry matches and detection raises. *)
Lemma gap_of_348_bytes_is_not_found :
  detect_offsets false (fresh image_gap_348_bytes) =
  ({| self := {| content := binascii.hexlify image_gap_348_bytes;
                 offsets := {| header := Some 0; footer := None |} |};
      stdout := []; written := None |},
   Raise (CheckException "Couldn't find the ROM footer!"))
  /\
  ~ (exists st,
        detect_offsets false (fresh image_gap_348_bytes) = (st, Ok tt)).
Proof.
  assert (E : detect_offsets false (fresh image_gap_348_bytes) =
              ({| self := {| content := binascii.hexlify image_gap_348_bytes;
                             offsets := {| header := Some 0; footer := None |} |};
                  stdout := []; written := None |},
               Raise (CheckException "Couldn't find the ROM footer!")))
    by (vm_compute; reflexivity).
  split; [exact E|].
  intros [st Hst]. rewrite E in Hst. discriminate Hst.
Qed.

(** * Further properties of the program *)

(** ** The hex view built at load time *)

Lemma skipn_hexlify (k : nat) :
  forall f, skipn (2 * k) (binascii.hexlify f) = binascii.hexlify (skipn k f).
Proof.
  induction k as [|k IH]; intros f; [reflexivity|].
  replace (2 * S k) with (S (S (2 * k))) by lia.
  destruct f as [|x f]; [reflexivity|].
  rewrite hexlify_cons. cbn [skipn]. apply IH.
Qed.

Lemma firstn_hexlify (k : nat) :
  forall f, firstn (2 * k) (binascii.hexlify f) = binascii.hexlify (firstn k f).
Proof.
  induction k as [|k IH]; intros f; [reflexivity|].
  replace (2 * S k) with (S (S (2 * k))) by lia.
  destruct f as [|x f]; [reflexivity|].
  rewrite hexlify_cons. cbn [firstn]. rewrite IH.
  now rewrite hexlify_cons.
Qed.

Lemma slice_hexlify (f : list byte) (a b : nat) :
  bytes_slice (binascii.hexlify f) (2 * a) (2 * b) =
  binascii.hexlify (bytes_slice f a b).
Proof.
  unfold bytes_slice.
  replace (2 * b - 2 * a) with (2 * (b - a)) by lia.
  now rewrite skipn_hexlify, firstn_hexlify.
Qed.

(** X1. Loading an image gives a hex view twice as long as the image, of
    even length, made of the digits [[0-9a-f]] only, with both offsets
    unset. *)
Theorem loaded_view_is_lowercase_hex (f : list byte) :
  length (content (VBIOSROM_init f)) = 2 * length f /\
  Nat.even (length (content (VBIOSROM_init f))) = true /\
  forallb in_hex_class (content (VBIOSROM_init f)) = true /\
  offsets (VBIOSROM_init f) = {| header := None; footer := None |}.
Proof.
  cbn [VBIOSROM_init content offsets].
  split; [apply hexlify_length|]. split.
  - rewrite hexlify_length, <- Nat.negb_odd, odd_double. reflexivity.
  - split; [apply hexlify_in_hex_class | reflexivity].
Qed.

(** ** Decoding a range of the hex view *)

Lemma decode_digit_pair (c1 c2 : byte) :
  in_hex_class c1 = true -> in_hex_class c2 = true ->
  ((16 <=? binascii.digit_value c1)%N || (16 <=? binascii.digit_value c2)%N)
  = false /\
  binascii.hexlify
    [binascii.byte_of_nibbles (binascii.digit_value c1) (binascii.digit_value c2)]
  = [c1; c2].
Proof.
  intros H1 H2.
  destruct c1; cbv in H1; try discriminate H1;
    destruct c2; cbv in H2; try discriminate H2;
    split; reflexivity.
Qed.

Lemma unhexlify_pairs_lowercase (s : list byte) :
  Nat.odd (length s) = false ->
  forallb in_hex_class s = true ->
  exists data,
    binascii.unhexlify_pairs s = Some data /\ binascii.hexlify data = s.
Proof.
  induction s as [|x|x y l IH] using pair_induction; intros Hodd Hhex.
  - exists []. split; reflexivity.
  - discriminate Hodd.
  - cbn [forallb] in Hhex.
    apply andb_true_iff in Hhex as [Hx Hhex].
    apply andb_true_iff in Hhex as [Hy Hl].
    change (Nat.odd (length (x :: y :: l))) with (Nat.odd (length l)) in Hodd.
    destruct (IH Hodd Hl) as (data & Hd & He).
    destruct (decode_digit_pair x y Hx Hy) as [Hv Hb].
    exists (binascii.byte_of_nibbles (binascii.digit_value x)
                                    (binascii.digit_value y) :: data).
    cbn [binascii.unhexlify_pairs]. rewrite Hv, Hd.
    split; [reflexivity|].
    change (binascii.hexlify
              (binascii.byte_of_nibbles (binascii.digit_value x)
                 (binascii.digit_value y) :: data))
      with (binascii.hexlify
              [binascii.byte_of_nibbles (binascii.digit_value x)
                 (binascii.digit_value y)] ++ binascii.hexlify data).
    now rewrite Hb, He.
Qed.

(** Decoding a string of digits [[0-9a-f]]: an odd length is the only
    failure, and what is decoded encodes back to the string. *)
Lemma unhexlify_lowercase (s : list byte) :
  forallb in_hex_class s = true ->
  match binascii.unhexlify s with
  | inl e => Nat.odd (length s) = true /\ e = "Odd-length string"%string
  | inr data => Nat.odd (length s) = false /\ binascii.hexlify data = s
  end.
Proof.
  intros Hhex. unfold binascii.unhexlify.
  destruct (Nat.odd (length s)) eqn:Hodd; [split; reflexivity|].
  destruct (unhexlify_pairs_lowercase s Hodd Hhex) as (data & Hd & He).
  rewrite Hd. split; [reflexivity | exact He].
Qed.

(** ** Splicing *)

Lemma get_spliced_rom_state (df : bool) (st : State) :
  fst (get_spliced_rom df st) = st.
Proof.
  unfold get_spliced_rom, bind at 1, get_offsets.
  unfold bind at 1, get_content.
  destruct (header (offsets (self st))) as [h|]; [|reflexivity].
  destruct df; cbn [negb].
  - unfold bind, ret.
    destruct (binascii.unhexlify (bytes_slice_from (content (self st)) h));
      reflexivity.
  - destruct (footer (offsets (self st))) as [p|]; [|reflexivity].
    unfold bind, ret.
    destruct (binascii.unhexlify (bytes_slice (content (self st)) h p));
      reflexivity.
Qed.

(** X2. Splicing leaves the object, the output printed so far and the file
    untouched, whatever it returns or raises. *)
Theorem get_spliced_rom_keeps_state (df : bool) (st : State) :
  fst (get_spliced_rom df st) = st.
Proof. exact (get_spliced_rom_state df st). Qed.

(** X3. The preconditions of splicing.  With the header offset unset it
    raises "Header offset not found; cannot splice ROM" in either mode, the
    header being checked before the footer.  With the header set, the footer
    unset and the footer included, it raises "Footer offset not found; cannot
    splice ROM".  With the footer excluded, the footer offset is not
    consulted. *)
Theorem get_spliced_rom_preconditions (st : State) :
  (header (offsets (self st)) = None ->
   forall df,
     get_spliced_rom df st =
     (st, Raise (CheckException "Header offset not found; cannot splice ROM")))
  /\
  (forall h,
      header (offsets (self st)) = Some h ->
      footer (offsets (self st)) = None ->
      get_spliced_rom false st =
      (st, Raise (CheckException "Footer offset not found; cannot splice ROM")))
  /\
  (forall st2,
      content (self st2) = content (self st) ->
      header (offsets (self st2)) = header (offsets (self st)) ->
      snd (get_spliced_rom true st2) = snd (get_spliced_rom true st)).
Proof.
  split; [|split].
  - intros Hh df. unfold get_spliced_rom, bind at 1, get_offsets.
    unfold bind at 1, get_content. now rewrite Hh.
  - intros h Hh Hf. rewrite (get_spliced_rom_eq st false h Hh).
    cbv zeta. now rewrite Hf.
  - intros st2 Hc Hh.
    destruct (header (offsets (self st))) as [h|] eqn:E.
    + rewrite (get_spliced_rom_eq st true h E),
        (get_spliced_rom_eq st2 true h Hh).
      cbv zeta. rewrite Hc.
      destruct (binascii.unhexlify (bytes_slice_from (content (self st)) h));
        reflexivity.
    + unfold get_spliced_rom, bind at 1, get_offsets.
      unfold bind at 1, get_content. rewrite Hh.
      unfold bind at 1, get_offsets. unfold bind at 1, get_content.
      now rewrite E.
Qed.

(** A freshly loaded object has no header offset; after a detection without
    footer search the footer is still unset. *)
Lemma get_spliced_rom_preconditions_witness :
  get_spliced_rom true (fresh image_gtx10) =
  (fresh image_gtx10,
   Raise (CheckException "Header offset not found; cannot splice ROM"))
  /\
  get_spliced_rom false (fst (detect_offsets true (fresh image_gtx10))) =
  (fst (detect_offsets true (fresh image_gtx10)),
   Raise (CheckException "Footer offset not found; cannot splice ROM")).
Proof.
  split.
  - apply (proj1 (get_spliced_rom_preconditions (fresh image_gtx10))).
    reflexivity.
  - apply (proj1 (proj2 (get_spliced_rom_preconditions
                           (fst (detect_offsets true (fresh image_gtx10)))))
             0);
      vm_compute; reflexivity.
Defined.

(** X4. Splicing at byte boundaries returns a slice of the image.  With the
    header at hex index [2 * a] and the footer at [2 * b], splicing with the
    footer returns the bytes [image[a:b]]; with the header at [2 * a],
    splicing without the footer returns [image[a:]], whatever the footer
    offset is. *)
Theorem splice_at_byte_boundaries (f : list byte) (a b : nat)
        (fo : option nat) (out : list string) (wr : option (list byte)) :
  get_spliced_rom false
    {| self := {| content := binascii.hexlify f;
                  offsets := {| header := Some (2 * a);
                                footer := Some (2 * b) |} |};
       stdout := out; written := wr |} =
  ({| self := {| content := binascii.hexlify f;
                 offsets := {| header := Some (2 * a);
                               footer := Some (2 * b) |} |};
      stdout := out; written := wr |}, Ok (bytes_slice f a b))
  /\
  get_spliced_rom true
    {| self := {| content := binascii.hexlify f;
                  offsets := {| header := Some (2 * a); footer := fo |} |};
       stdout := out; written := wr |} =
  ({| self := {| content := binascii.hexlify f;
                 offsets := {| header := Some (2 * a); footer := fo |} |};
      stdout := out; written := wr |}, Ok (bytes_slice_from f a)).
Proof.
  split.
  - match goal with
    | |- get_spliced_rom _ ?s = _ =>
        rewrite (get_spliced_rom_eq s false (2 * a) eq_refl)
    end.
    cbn [self content offsets footer].
    now rewrite slice_hexlify, decode_encode.
  - match goal with
    | |- get_spliced_rom _ ?s = _ =>
        rewrite (get_spliced_rom_eq s true (2 * a) eq_refl)
    end.
    cbn [self content offsets footer].
    unfold bytes_slice_from. now rewrite skipn_hexlify, decode_encode.
Qed.

(** X5. Splicing a loaded image with both offsets set.  Whatever the
    offsets, the only failure is an extracted range of odd length, raised as
    "Failed to unhexlify spliced content: Odd-length string"; a digit error
    cannot occur.  When splicing succeeds, the output encodes back to exactly
    the extracted range of the hex view: no digit is altered. *)
Theorem splice_of_loaded_image (f : list byte) (h p : nat)
        (out : list string) (wr : option (list byte)) :
  match
    snd (get_spliced_rom false
           {| self := {| content := binascii.hexlify f;
                         offsets := {| header := Some h; footer := Some p |} |};
              stdout := out; written := wr |})
  with
  | Ok data =>
      Nat.odd (length (bytes_slice (binascii.hexlify f) h p)) = false /\
      binascii.hexlify data = bytes_slice (binascii.hexlify f) h p
  | Raise e =>
      Nat.odd (length (bytes_slice (binascii.hexlify f) h p)) = true /\
      e = CheckException "Failed to unhexlify spliced content: Odd-length string"
  end.
Proof.
  match goal with
  | |- context [get_spliced_rom _ ?s] =>
      rewrite (get_spliced_rom_eq s false h eq_refl)
  end.
  cbn [self content offsets footer].
  assert (Hhex : forallb in_hex_class (bytes_slice (binascii.hexlify f) h p)
                 = true).
  { unfold bytes_slice. apply forallb_firstn, forallb_skipn,
      hexlify_in_hex_class. }
  pose proof (unhexlify_lowercase _ Hhex) as H.
  destruct (binascii.unhexlify (bytes_slice (binascii.hexlify f) h p))
    as [e|data]; cbn [snd].
  - destruct H as [Hodd ->]. split; [exact Hodd | reflexivity].
  - exact H.
Qed.

(** ** Detection *)

(** X6. Detecting twice gives what detecting once gives: the second run
    leaves the object as the first run left it and ends the same way. *)
Theorem detect_offsets_idempotent (st : State) (df : bool) :
  self (fst (detect_offsets df (fst (detect_offsets df st)))) =
  self (fst (detect_offsets df st)) /\
  snd (detect_offsets df (fst (detect_offsets df st))) =
  snd (detect_offsets df st).
Proof.
  destruct (detect_offsets_cases st df)
    as [[Hno E]|(h & Hh & [[Hdf E]|[(Hdf & Hnone & E)|(Hdf & pre & gap & name & post & p & Hcat & Hpre & Hp & E)]])];
    try subst df; rewrite E; cbn [fst snd].
  - rewrite E. split; reflexivity.
  - match goal with
    | |- context [detect_offsets true ?s] =>
        rewrite (detect_offsets_header_found s true h Hh)
    end.
    split; reflexivity.
  - match goal with
    | |- context [detect_offsets false ?s] =>
        rewrite (detect_offsets_footer_missing s h Hh Hnone)
    end.
    split; reflexivity.
  - match goal with
    | |- context [detect_offsets false ?s] =>
        rewrite (detect_offsets_footer_found s h Hh pre gap name post p
                   Hcat Hpre Hp)
    end.
    split; reflexivity.
Qed.

(** X7. What detection leaves alone.  It never changes the hex view nor the
    file.  When it raises, it has printed nothing and the footer offset is
    as before; when it returns, the header offset is set.  Without footer
    search it touches neither the footer offset nor the output. *)
Theorem detect_offsets_frame (st : State) (df : bool) :
  content (self (fst (detect_offsets df st))) = content (self st) /\
  written (fst (detect_offsets df st)) = written st /\
  match snd (detect_offsets df st) with
  | Raise _ =>
      stdout (fst (detect_offsets df st)) = stdout st /\
      footer (offsets (self (fst (detect_offsets df st)))) =
      footer (offsets (self st))
  | Ok _ => header (offsets (self (fst (detect_offsets df st)))) <> None
  end /\
  (if df
   then footer (offsets (self (fst (detect_offsets df st)))) =
        footer (offsets (self st)) /\
        stdout (fst (detect_offsets df st)) = stdout st
   else True).
Proof.
  destruct (detect_offsets_cases st df)
    as [[Hno E]|(h & Hh & [[Hdf E]|[(Hdf & Hnone & E)|(Hdf & pre & gap & name & post & p & Hcat & Hpre & Hp & E)]])];
    rewrite E; cbn [fst snd self content offsets header footer stdout written].
  - repeat split. destruct df; [split; reflexivity | exact I].
  - subst df. repeat split. discriminate.
  - subst df. repeat split.
  - subst df. repeat split. discriminate.
Qed.

Lemma catalog_gap_at_least (gap : nat) (name : string) :
  In (gap, name) FOOTER_GAPS -> 124 <= gap.
Proof.
  unfold FOOTER_GAPS. cbn [In]. intros H.
  repeat (destruct H as [H|H]; [inversion H; subst; lia|]).
  destruct H.
Qed.

Lemma header_needs_38_digits (c : list byte) :
  length c < 38 -> matches_anywhere HEADER_REGEX c = false.
Proof.
  intros Hlen. unfold matches_anywhere.
  destruct (existsb (matches_at HEADER_REGEX c) (seq 0 (S (length c))))
    eqn:E; [|reflexivity].
  apply existsb_exists in E as (q & _ & Hq).
  apply header_span in Hq as (_ & Hle & _). lia.
Qed.

(** X8. Images too short to hold the anchors.  An image of fewer than 19
    bytes, the empty image included, has no header: detection raises
    "Couldn't find the ROM header!" in either mode and changes nothing.  An
    image of fewer than 100 bytes has no footer layout: detection with footer
    search never succeeds on it. *)
Theorem images_too_short (f : list byte) :
  (length f < 19 ->
   forall df,
     detect_offsets df (fresh f) =
     (fresh f, Raise (CheckException "Couldn't find the ROM header!")))
  /\
  (length f < 100 -> snd (detect_offsets false (fresh f)) <> Ok tt).
Proof.
  split.
  - intros Hlen df. apply detect_offsets_header_missing.
    apply header_needs_38_digits.
    cbn [fresh self content VBIOSROM_init]. rewrite hexlify_length. lia.
  - intros Hlen.
    destruct (detect_offsets_cases (fresh f) false)
      as [[Hno E]|(h & Hh & [[Hdf E]|[(Hdf & Hnone & E)|(Hdf & pre & gap & name & post & p & Hcat & Hpre & Hp & E)]])];
      rewrite E; cbn [snd]; try discriminate.
    apply leftmost_match_matches, footer_span in Hp as (_ & Hle & _).
    cbn [fresh self content VBIOSROM_init] in Hle.
    rewrite hexlify_length in Hle.
    assert (Hin : In (gap, name) FOOTER_GAPS) by (rewrite Hcat; apply in_elt).
    apply catalog_gap_at_least in Hin. lia.
Qed.

(** The empty image, and the header anchor on its own. *)
Lemma images_too_short_witness :
  detect_offsets true (fresh []) =
  (fresh [], Raise (CheckException "Couldn't find the ROM header!"))
  /\
  snd (detect_offsets false (fresh sample_anchor)) <> Ok tt.
Proof.
  split.
  - apply (proj1 (images_too_short [])). cbn [length]. lia.
  - apply (proj2 (images_too_short sample_anchor)). vm_compute. lia.
Defined.

(** ** The sanity check *)

Lemma run_sanity_tests_state (ign : bool) (st : State) :
  self (fst (run_sanity_tests ign st)) = self st /\
  written (fst (run_sanity_tests ign st)) = written st /\
  match snd (run_sanity_tests ign st) with
  | Raise _ => fst (run_sanity_tests ign st) = st
  | Ok _ => True
  end.
Proof.
  destruct (header (offsets (self st))) as [h|] eqn:Hh.
  - destruct (footer (offsets (self st))) as [f|] eqn:Hf.
    + rewrite (run_sanity_tests_set st ign h f Hh Hf).
      destruct (sanity_violation (content (self st)) h f) as [msg|].
      * unfold violation_outcome. destruct ign; repeat split.
      * repeat split.
    + rewrite (run_sanity_tests_unset st ign (or_intror Hf)). repeat split.
  - rewrite (run_sanity_tests_unset st ign (or_introl Hh)). repeat split.
Qed.

(** X9. The sanity check only reads and prints: it never changes the
    object nor the file, and when it raises it has printed nothing. *)
Theorem run_sanity_tests_frame (ign : bool) (st : State) :
  self (fst (run_sanity_tests ign st)) = self st /\
  written (fst (run_sanity_tests ign st)) = written st /\
  match snd (run_sanity_tests ign st) with
  | Raise _ => fst (run_sanity_tests ign st) = st
  | Ok _ => True
  end.
Proof. exact (run_sanity_tests_state ign st). Qed.

Lemma occurrences_empty_range (sub c : list byte) (h f : nat) :
  f <= h -> occurrences sub c h f = [].
Proof.
  intros Hle. unfold occurrences.
  replace (f - h) with 0 by lia. reflexivity.
Qed.

(** X10. An empty range always fails the first rule.  With both offsets set
    and the footer not after the header, the check finds no NPDS: it raises
    "Expected only one 'NPDS' marker between header and footer, found 0",
    or prints it when violations are ignored. *)
Theorem sanity_check_on_empty_range (st : State) (h f : nat) :
  header (offsets (self st)) = Some h ->
  footer (offsets (self st)) = Some f ->
  f <= h ->
  run_sanity_tests false st =
  (st, Raise (CheckException
     "Expected only one 'NPDS' marker between header and footer, found 0"))
  /\
  run_sanity_tests true st =
  ({| self := self st;
      stdout := stdout st
                ++ ["Encountered error during sanity check: Expected only one 'NPDS' marker between header and footer, found 0"%string;
                    "Ignoring..."%string];
      written := written st |}, Ok tt).
Proof.
  intros Hh Hf Hle.
  rewrite !(run_sanity_tests_set st _ h f Hh Hf).
  unfold sanity_violation, rule_one_npds.
  rewrite (occurrences_empty_range NPDS _ h f Hle).
  split; reflexivity.
Qed.

(** The image whose footer layout precedes the header anchor. *)
Lemma sanity_check_on_empty_range_witness :
  run_sanity_tests false (fst (detect_offsets false (fresh image_footer_first))) =
  (fst (detect_offsets false (fresh image_footer_first)),
   Raise (CheckException
     "Expected only one 'NPDS' marker between header and footer, found 0")).
Proof.
  apply (proj1 (sanity_check_on_empty_range
                  (fst (detect_offsets false (fresh image_footer_first)))
                  200 0
                  ltac:(vm_compute; reflexivity)
                  ltac:(vm_compute; reflexivity)
                  ltac:(lia))).
Defined.

Lemma occurrences_of_slice (sub c1 c2 : list byte) (h f : nat) :
  sub <> [] ->
  bytes_slice c1 h f = bytes_slice c2 h f ->
  occurrences sub c1 h f = occurrences sub c2 h f.
Proof.
  intros Hsub Hs.
  rewrite <- (positions_slice sub Hsub c1), <- (positions_slice sub Hsub c2).
  now rewrite Hs.
Qed.

(** X11. The sanity check looks at the range between the offsets only: two
    objects with the same offsets whose hex views agree on [[header,
    footer)] get the same verdict, whatever lies before the header or from
    the footer on. *)
Theorem sanity_check_reads_range_only (st1 st2 : State) (ign : bool) (h f : nat) :
  header (offsets (self st1)) = Some h ->
  footer (offsets (self st1)) = Some f ->
  header (offsets (self st2)) = Some h ->
  footer (offsets (self st2)) = Some f ->
  bytes_slice (content (self st1)) h f = bytes_slice (content (self st2)) h f ->
  snd (run_sanity_tests ign st1) = snd (run_sanity_tests ign st2).
Proof.
  intros Hh1 Hf1 Hh2 Hf2 Hs.
  rewrite (run_sanity_tests_set st1 ign h f Hh1 Hf1).
  rewrite (run_sanity_tests_set st2 ign h f Hh2 Hf2).
  assert (Hv : sanity_violation (content (self st1)) h f =
               sanity_violation (content (self st2)) h f).
  { unfold sanity_violation, rule_one_npds, rule_three_npde,
      rule_two_npde_after_npds.
    rewrite (occurrences_of_slice NPDS _ _ h f npds_nonempty Hs).
    rewrite (occurrences_of_slice NPDE _ _ h f npde_nonempty Hs).
    reflexivity. }
  rewrite Hv.
  destruct (sanity_violation (content (self st2)) h f) as [msg|];
    [|reflexivity].
  unfold violation_outcome. destruct ign; reflexivity.
Qed.

(** The scenario image and the same image followed by one more NPDS. *)
Lemma sanity_check_reads_range_only_witness :
  snd (run_sanity_tests false
         (fst (detect_offsets false (fresh image_gtx10)))) =
  snd (run_sanity_tests false
         (fst (detect_offsets false (fresh (image_gtx10 ++ npds_bytes))))).
Proof.
  apply (sanity_check_reads_range_only
           (fst (detect_offsets false (fresh image_gtx10)))
           (fst (detect_offsets false (fresh (image_gtx10 ++ npds_bytes))))
           false 0 100);
    vm_compute; reflexivity.
Defined.

(** ** The whole program *)

Lemma bind_assoc {A C D : Type} (m : M A) (k : A -> M C) (k' : C -> M D)
      (st : State) :
  bind (bind m k) k' st = bind m (fun a => bind (k a) k') st.
Proof.
  unfold bind. destruct (m st) as [st' [a|e]]; reflexivity.
Qed.

Lemma main_steps_split (args : Args) (answer : string) (st : State) :
  main_steps args answer st = bind (pipeline args) (finish args answer) st.
Proof.
  unfold main_steps, pipeline, finish, bind. cbn [print].
  destruct (detect_offsets (disable_footer_strip args) _) as [s2 [[]|e]];
    [|reflexivity].
  destruct (disable_footer_strip args); cbn [negb ret].
  - destruct (get_spliced_rom true _) as [s5 [data|e]]; reflexivity.
  - destruct (run_sanity_tests (ignore_sanity_check args) _) as [s4 [[]|e]];
      [|reflexivity].
    destruct (get_spliced_rom false _) as [s5 [data|e]]; reflexivity.
Qed.

Lemma detect_offsets_written (st : State) (df : bool) :
  written (fst (detect_offsets df st)) = written st.
Proof.
  destruct (detect_offsets_cases st df)
    as [[Hno E]|(h & Hh & [[Hdf E]|[(Hdf & Hnone & E)|(Hdf & pre & gap & name & post & p & Hcat & Hpre & Hp & E)]])];
    rewrite E; reflexivity.
Qed.

Lemma get_spliced_rom_self (df : bool) (st1 st2 : State) :
  self st1 = self st2 ->
  snd (get_spliced_rom df st1) = snd (get_spliced_rom df st2).
Proof.
  intros H. unfold get_spliced_rom, bind, get_offsets, get_content, ret, raise.
  rewrite H.
  destruct (header (offsets (self st2))) as [h|]; [|reflexivity].
  destruct df; cbn [negb].
  - destruct (binascii.unhexlify (bytes_slice_from (content (self st2)) h));
      reflexivity.
  - destruct (footer (offsets (self st2))) as [p|]; [|reflexivity].
    destruct (binascii.unhexlify (bytes_slice (content (self st2)) h p));
      reflexivity.
Qed.

(** The first half of [main] writes nothing, and what it yields is what
    splicing yields on the object it leaves. *)
Lemma pipeline_outcome (args : Args) (st : State) :
  written (fst (pipeline args st)) = written st /\
  match snd (pipeline args st) with
  | Ok data =>
      snd (get_spliced_rom (disable_footer_strip args) (fst (pipeline args st)))
      = Ok data
  | Raise _ => True
  end.
Proof.
  unfold pipeline, bind. cbn [print].
  match goal with
  | |- context [detect_offsets ?d ?s] =>
      pose proof (detect_offsets_written s d) as Hw;
      destruct (detect_offsets d s) as [s2 [[]|e]]
  end; cbn [fst snd written] in * |- *.
  2: { split; [exact Hw | exact I]. }
  destruct (disable_footer_strip args) eqn:Edf; cbn [negb ret].
  - match goal with
    | |- context [get_spliced_rom true ?s] =>
        pose proof (get_spliced_rom_state true s) as Hst;
        destruct (get_spliced_rom true s) as [s5 [data|e]] eqn:E5
    end; cbn [fst snd] in Hst |- *; subst s5; cbn [written].
    + split; [exact Hw | now rewrite E5].
    + split; [exact Hw | exact I].
  - match goal with
    | |- context [run_sanity_tests ?i ?s] =>
        destruct (run_sanity_tests_state i s) as (Hself & Hwr & _);
        destruct (run_sanity_tests i s) as [s4 [[]|e]]
    end; cbn [fst snd written] in Hself, Hwr |- *.
    2: { split; [congruence | exact I]. }
    pose proof (get_spliced_rom_state false s4) as Hst.
    destruct (get_spliced_rom false s4) as [s5 [data|e]] eqn:E5;
      cbn [fst snd] in Hst |- *; subst s5.
    + split; [congruence | now rewrite E5].
    + split; [congruence | exact I].
Qed.

(** X12. [main] writes the file only when everything before succeeded.  If
    [main] ends with an exception (a failed detection, sanity check or
    splice, or a refused confirmation), no file is written; if it returns,
    the file holds exactly the bytes that splicing yields on the object it
    leaves. *)
Theorem main_writes_only_on_success (args : Args) (f : list byte)
        (answer : string) :
  match snd (main args f answer) with
  | Ok _ =>
      exists data,
        written (fst (main args f answer)) = Some data /\
        snd (get_spliced_rom (disable_footer_strip args)
               (fst (main args f answer))) = Ok data
  | Raise _ => written (fst (main args f answer)) = None
  end.
Proof.
  unfold main. rewrite main_steps_split.
  match goal with
  | |- context [bind (pipeline args) _ ?s] =>
      destruct (pipeline_outcome args s) as [Hw Hd];
      unfold bind;
      destruct (pipeline args s) as [s5 [data|e]]
  end; cbn [fst snd written] in Hw, Hd |- *; [|exact Hw].
  unfold finish, bind.
  destruct (skip_the_very_important_warning args); cbn [negb ret print].
  - cbn [write_file fst snd written].
    exists data. split; [reflexivity|].
    rewrite <- Hd. now apply get_spliced_rom_self.
  - destruct (String.eqb answer CONFIRM_TEXT); cbn [negb ret print raise].
    + cbn [write_file fst snd written].
      exists data. split; [reflexivity|].
      rewrite <- Hd. now apply get_spliced_rom_self.
    + cbn [fst snd written]. exact Hw.
Qed.

(** X13. The confirmation prompt.  Compare a run that skips the warning
    with the same run that asks.  If the first fails, the second fails in the
    same way before any prompt.  Otherwise the second prints the warning and
    the prompt; with the phrase typed exactly it writes the same file, and
    with any other answer it prints "Wrong answer, halting...", exits with
    status 1 and writes nothing. *)
Theorem confirmation_gate (ign df : bool) (f : list byte) (answer : string) :
  match
    snd (main {| ignore_sanity_check := ign; disable_footer_strip := df;
                 skip_the_very_important_warning := true |} f answer)
  with
  | Raise e =>
      main {| ignore_sanity_check := ign; disable_footer_strip := df;
              skip_the_very_important_warning := false |} f answer =
      main {| ignore_sanity_check := ign; disable_footer_strip := df;
              skip_the_very_important_warning := true |} f answer
  | Ok _ =>
      if String.eqb answer CONFIRM_TEXT
      then
        snd (main {| ignore_sanity_check := ign; disable_footer_strip := df;
                     skip_the_very_important_warning := false |} f answer)
        = Ok tt /\
        written
          (fst (main {| ignore_sanity_check := ign; disable_footer_strip := df;
                        skip_the_very_important_warning := false |} f answer))
        = written
            (fst (main {| ignore_sanity_check := ign; disable_footer_strip := df;
                          skip_the_very_important_warning := true |} f answer))
      else
        snd (main {| ignore_sanity_check := ign; disable_footer_strip := df;
                     skip_the_very_important_warning := false |} f answer)
        = Raise (SystemExit 1) /\
        written
          (fst (main {| ignore_sanity_check := ign; disable_footer_strip := df;
                        skip_the_very_important_warning := false |} f answer))
        = None /\
        exists before,
          stdout
            (fst (main {| ignore_sanity_check := ign; disable_footer_strip := df;
                          skip_the_very_important_warning := false |} f answer))
          = before ++ [WARNING_TEXT; "Type here: "%string;
                       "Wrong answer, halting..."%string]
  end.
Proof.
  unfold main. rewrite !main_steps_split.
  change (pipeline {| ignore_sanity_check := ign; disable_footer_strip := df;
                      skip_the_very_important_warning := false |})
    with (pipeline {| ignore_sanity_check := ign; disable_footer_strip := df;
                      skip_the_very_important_warning := true |}).
  match goal with
  | |- context [bind (pipeline ?a) _ ?s] =>
      destruct (pipeline_outcome a s) as [Hw _];
      unfold bind;
      destruct (pipeline a s) as [s5 [data|e]]
  end; cbn [fst snd written] in Hw |- *; [|reflexivity].
  unfold finish, bind.
  cbn [skip_the_very_important_warning negb ret print write_file fst snd].
  destruct (String.eqb answer CONFIRM_TEXT); cbn [negb ret print raise fst snd].
  - cbn [write_file fst snd written]. split; reflexivity.
  - cbn [written stdout]. split; [reflexivity|]. split; [exact Hw|].
    exists (stdout s5). now rewrite <- !app_assoc.
Qed.

Lemma odd_after_odd_index (n k : nat) :
  2 * k + 1 <= 2 * n -> Nat.odd (2 * n - (2 * k + 1)) = true.
Proof.
  intros H. replace (2 * n - (2 * k + 1)) with (1 + 2 * (n - k - 1)) by lia.
  now rewrite Nat.odd_add_mul_2.
Qed.

(** X14. A run with footer stripping disabled.  The sanity check is not
    run and the footer is not searched.  When the header anchor is found at
    an even hex index [2 * k], [main] writes the image from byte [k] to its
    end; when it is found at an odd index, the splice fails with "Failed to
    unhexlify spliced content: Odd-length string" and nothing is written. *)
Theorem run_without_footer_strip (f : list byte) (k : nat) (ign : bool)
        (answer : string) :
  (leftmost_match HEADER_REGEX (binascii.hexlify f) (2 * k) = true ->
   main {| ignore_sanity_check := ign; disable_footer_strip := true;
           skip_the_very_important_warning := true |} f answer =
   ({| self := {| content := binascii.hexlify f;
                  offsets := {| header := Some (2 * k); footer := None |} |};
       stdout := ["Opening the ROM file..."%string;
                  "Scanning for ROM offsets..."%string;
                  "Offsets found!"%string;
                  "Writing the edited ROM..."%string;
                  "Done!"%string];
       written := Some (bytes_slice_from f k) |}, Ok tt))
  /\
  (leftmost_match HEADER_REGEX (binascii.hexlify f) (2 * k + 1) = true ->
   main {| ignore_sanity_check := ign; disable_footer_strip := true;
           skip_the_very_important_warning := true |} f answer =
   ({| self := {| content := binascii.hexlify f;
                  offsets := {| header := Some (2 * k + 1); footer := None |} |};
       stdout := ["Opening the ROM file..."%string;
                  "Scanning for ROM offsets..."%string;
                  "Offsets found!"%string];
       written := None |},
    Raise (CheckException
             "Failed to unhexlify spliced content: Odd-length string"))).
Proof.
  split; intros Hh; unfold main, main_steps;
    cbn [disable_footer_strip ignore_sanity_check
         skip_the_very_important_warning negb].
  - erewrite bind_ok by reflexivity.
    erewrite bind_ok
      by (exact (detect_offsets_header_found
                   {| self := VBIOSROM_init f;
                      stdout := ["Opening the ROM file..."%string;
                                 "Scanning for ROM offsets..."%string];
                      written := None |} true (2 * k) Hh)).
    erewrite bind_ok by reflexivity.
    erewrite bind_ok by reflexivity.
    match goal with
    | |- bind (get_spliced_rom true) _ ?s = _ =>
        assert (E : get_spliced_rom true s = (s, Ok (bytes_slice_from f k)))
    end.
    { match goal with
      | |- get_spliced_rom true ?s = _ =>
          rewrite (get_spliced_rom_eq s true (2 * k) eq_refl)
      end.
      cbn [self content offsets VBIOSROM_init].
      unfold bytes_slice_from. now rewrite skipn_hexlify, decode_encode. }
    erewrite bind_ok by exact E.
    reflexivity.
  - erewrite bind_ok by reflexivity.
    erewrite bind_ok
      by (exact (detect_offsets_header_found
                   {| self := VBIOSROM_init f;
                      stdout := ["Opening the ROM file..."%string;
                                 "Scanning for ROM offsets..."%string];
                      written := None |} true (2 * k + 1) Hh)).
    erewrite bind_ok by reflexivity.
    erewrite bind_ok by reflexivity.
    apply leftmost_match_matches, header_span in Hh as (_ & Hle & _).
    rewrite hexlify_length in Hle.
    match goal with
    | |- bind (get_spliced_rom true) _ ?s = _ =>
        assert (E : get_spliced_rom true s =
                    (s, Raise (CheckException
                       "Failed to unhexlify spliced content: Odd-length string")))
    end.
    { match goal with
      | |- get_spliced_rom true ?s = _ =>
          rewrite (get_spliced_rom_eq s true (2 * k + 1) eq_refl)
      end.
      cbn [self content offsets VBIOSROM_init].
      unfold bytes_slice_from, binascii.unhexlify.
      rewrite length_skipn, hexlify_length, odd_after_odd_index by lia.
      reflexivity. }
    erewrite bind_raise by exact E.
    reflexivity.
Qed.

(** The scenario image has its header at index 0, the shifted image at
    index 1. *)
Lemma run_without_footer_strip_witness :
  written
    (fst (main {| ignore_sanity_check := false; disable_footer_strip := true;
                  skip_the_very_important_warning := true |} image_gtx10 ""))
  = Some image_gtx10
  /\
  snd (main {| ignore_sanity_check := false; disable_footer_strip := true;
               skip_the_very_important_warning := true |} image_shifted "")
  = Raise (CheckException
             "Failed to unhexlify spliced content: Odd-length string").
Proof.
  split.
  - rewrite (proj1 (run_without_footer_strip image_gtx10 0 false ""))
      by (vm_compute; reflexivity).
    reflexivity.
  - rewrite (proj2 (run_without_footer_strip image_shifted 0 false ""))
      by (vm_compute; reflexivity).
    reflexivity.
Defined.

(** The [CheckException]s the first half of [main] can end with on a
    loaded image. *)
Lemma pipeline_check_exceptions (args : Args) (f : list byte)
      (out : list string) (wr : option (list byte)) :
  let r :=
    pipeline args {| self := VBIOSROM_init f; stdout := out; written := wr |} in
  match snd r with
  | Ok _ => True
  | Raise e =>
      exists msg,
        e = CheckException msg /\
        (msg = "Couldn't find the ROM header!"%string \/
         (disable_footer_strip args = false /\
          msg = "Couldn't find the ROM footer!"%string) \/
         (disable_footer_strip args = false /\
          ignore_sanity_check args = false /\
          exists h p,
            header (offsets (self (fst r))) = Some h /\
            footer (offsets (self (fst r))) = Some p /\
            sanity_violation (binascii.hexlify f) h p = Some msg) \/
         msg = "Failed to unhexlify spliced content: Odd-length string"%string)
  end.
Proof.
  unfold pipeline, bind. cbn [print].
  match goal with
  | |- context [detect_offsets ?d ?s] =>
      destruct (detect_offsets_cases s d)
        as [[Hno E]|(h & Hh & [[Hdf E]|[(Hdf & Hnone & E)|(Hdf & pre & gap & name & post & p & Hcat & Hpre & Hp & E)]])];
      rewrite E; cbn [fst snd]
  end.
  - eexists. split; [reflexivity|]. now left.
  - rewrite Hdf. cbn [negb ret self content offsets footer stdout written
                      VBIOSROM_init].
    match goal with
    | |- context [get_spliced_rom true ?s] =>
        rewrite (get_spliced_rom_eq s true h eq_refl)
    end.
    cbn [self content].
    assert (Hhex : forallb in_hex_class
                     (bytes_slice_from (binascii.hexlify f) h) = true)
      by apply forallb_skipn, hexlify_in_hex_class.
    pose proof (unhexlify_lowercase _ Hhex) as Hu.
    destruct (binascii.unhexlify (bytes_slice_from (binascii.hexlify f) h))
      as [e|data]; cbn [fst snd]; [|exact I].
    destruct Hu as [_ ->].
    eexists. split; [reflexivity|]. right. right. now right.
  - eexists. split; [reflexivity|].
    right. left. split; [exact Hdf | reflexivity].
  - rewrite Hdf. cbn [negb self content offsets footer stdout written
                      VBIOSROM_init].
    match goal with
    | |- context [run_sanity_tests ?i ?s] =>
        rewrite (run_sanity_tests_set s i h p eq_refl eq_refl)
    end.
    cbn [self content stdout written].
    destruct (sanity_violation (binascii.hexlify f) h p) as [msg|] eqn:Ev.
    + unfold violation_outcome.
      destruct (ignore_sanity_check args) eqn:Ei; cbn [fst snd].
      * match goal with
        | |- context [get_spliced_rom false ?s] =>
            rewrite (get_spliced_rom_eq s false h eq_refl)
        end.
        cbn [self content offsets footer].
        assert (Hhex : forallb in_hex_class
                         (bytes_slice (binascii.hexlify f) h p) = true)
          by (unfold bytes_slice;
              apply forallb_firstn, forallb_skipn, hexlify_in_hex_class).
        pose proof (unhexlify_lowercase _ Hhex) as Hu.
        destruct (binascii.unhexlify (bytes_slice (binascii.hexlify f) h p))
          as [e|data]; cbn [fst snd]; [|exact I].
        destruct Hu as [_ ->].
        eexists. split; [reflexivity|]. right. right. now right.
      * exists msg. split; [reflexivity|].
        right. right. left. split; [reflexivity|]. split; [reflexivity|].
        exists h, p. cbn [self offsets header footer].
        split; [reflexivity|]. split; [reflexivity | exact Ev].
    + cbn [fst snd].
      match goal with
      | |- context [get_spliced_rom false ?s] =>
          rewrite (get_spliced_rom_eq s false h eq_refl)
      end.
      cbn [self content offsets footer].
      assert (Hhex : forallb in_hex_class
                       (bytes_slice (binascii.hexlify f) h p) = true)
        by (unfold bytes_slice;
            apply forallb_firstn, forallb_skipn, hexlify_in_hex_class).
      pose proof (unhexlify_lowercase _ Hhex) as Hu.
      destruct (binascii.unhexlify (bytes_slice (binascii.hexlify f) h p))
        as [e|data]; cbn [fst snd]; [|exact I].
      destruct Hu as [_ ->].
      eexists. split; [reflexivity|]. right. right. now right.
Qed.

(** X15. The [CheckException]s of a run.  Whatever the image, the flags and
    the answer, a [CheckException] that ends [main] is one of four: the
    header not found; the footer not found (footer stripping enabled); a
    violation of one of the three sanity rules on the range between the two
    offsets detection stored (stripping enabled, violations not ignored); an
    extracted range of odd length.  The other [CheckException]s of the
    methods (offsets unset before the sanity check or the splice, NPDS
    position not found, a digit that is not hexadecimal) are never raised in
    a run of [main]. *)
Theorem main_check_exceptions (args : Args) (f : list byte) (answer : string) :
  match snd (main args f answer) with
  | Raise (CheckException msg) =>
      msg = "Couldn't find the ROM header!"%string \/
      (disable_footer_strip args = false /\
       msg = "Couldn't find the ROM footer!"%string) \/
      (disable_footer_strip args = false /\
       ignore_sanity_check args = false /\
       exists h p,
         header (offsets (self (fst (main args f answer)))) = Some h /\
         footer (offsets (self (fst (main args f answer)))) = Some p /\
         sanity_violation (binascii.hexlify f) h p = Some msg) \/
      msg = "Failed to unhexlify spliced content: Odd-length string"%string
  | _ => True
  end.
Proof.
  unfold main. rewrite main_steps_split.
  match goal with
  | |- context [bind (pipeline args) _ ?s] =>
      pose proof (pipeline_check_exceptions args f (stdout s) (written s)) as Hp;
      change {| self := VBIOSROM_init f; stdout := stdout s;
                written := written s |} with s in Hp;
      cbv zeta in Hp;
      unfold bind;
      destruct (pipeline args s) as [s5 [data|e]]
  end; cbn [fst snd] in Hp |- *.
  - unfold finish, bind.
    destruct (skip_the_very_important_warning args);
      cbn [negb ret print write_file fst snd]; [exact I|].
    destruct (String.eqb answer CONFIRM_TEXT);
      cbn [negb ret print raise write_file fst snd]; exact I.
  - destruct Hp as (msg & -> & Hp). exact Hp.
Qed.

(** X16. A run with footer stripping enabled, at byte boundaries.  When the
    header anchor is found at the even hex index [2 * a], the first catalog
    entry that matches is found at the even index [2 * b], and the sanity
    check passes or its violations are ignored, [main] returns and writes
    the bytes [image[a:b]]. *)
Theorem run_with_footer_strip (f : list byte) (a b : nat) (ign : bool)
        (answer : string)
        (pre : list (nat * string)) (gap : nat) (name : string)
        (post : list (nat * string)) :
  leftmost_match HEADER_REGEX (binascii.hexlify f) (2 * a) = true ->
  FOOTER_GAPS = pre ++ (gap, name) :: post ->
  none_matches (binascii.hexlify f) pre = true ->
  leftmost_match (footer_pattern gap) (binascii.hexlify f) (2 * b) = true ->
  sanity_violation (binascii.hexlify f) (2 * a) (2 * b) = None \/ ign = true ->
  snd (main {| ignore_sanity_check := ign; disable_footer_strip := false;
               skip_the_very_important_warning := true |} f answer) = Ok tt
  /\
  written
    (fst (main {| ignore_sanity_check := ign; disable_footer_strip := false;
                  skip_the_very_important_warning := true |} f answer))
  = Some (bytes_slice f a b).
Proof.
  intros Hh Hcat Hpre Hp Hsane.
  unfold main, main_steps.
  cbn [disable_footer_strip ignore_sanity_check
       skip_the_very_important_warning negb].
  erewrite bind_ok by reflexivity.
  erewrite bind_ok
    by (exact (detect_offsets_footer_found
                 {| self := VBIOSROM_init f;
                    stdout := ["Opening the ROM file..."%string;
                               "Scanning for ROM offsets..."%string];
                    written := None |}
                 (2 * a) Hh pre gap name post (2 * b) Hcat Hpre Hp)).
  erewrite bind_ok by reflexivity.
  cbn [self content stdout written VBIOSROM_init].
  match goal with
  | |- context [bind (print "Running sanity checks..." ;; run_sanity_tests ign)
                  _ ?s] =>
      assert (Hs : exists out,
                 (print "Running sanity checks..." ;; run_sanity_tests ign) s =
                 ({| self := self s; stdout := out; written := None |}, Ok tt))
  end.
  { erewrite bind_ok by reflexivity.
    match goal with
    | |- context [run_sanity_tests ign ?s] =>
        rewrite (run_sanity_tests_set s ign (2 * a) (2 * b) eq_refl eq_refl)
    end.
    cbn [self content stdout written].
    destruct (sanity_violation (binascii.hexlify f) (2 * a) (2 * b))
      as [msg|] eqn:Ev.
    - destruct Hsane as [Hs|Hs]; [discriminate Hs|]. subst ign.
      unfold violation_outcome. cbn [self stdout written]. eauto.
    - eauto. }
  destruct Hs as [out Hs].
  erewrite bind_ok by exact Hs.
  cbn [self].
  match goal with
  | |- context [bind (get_spliced_rom false) _ ?s] =>
      assert (E : get_spliced_rom false s = (s, Ok (bytes_slice f a b)))
  end.
  { match goal with
    | |- get_spliced_rom false ?s = _ =>
        rewrite (get_spliced_rom_eq s false (2 * a) eq_refl)
    end.
    cbn [self content offsets footer].
    now rewrite slice_hexlify, decode_encode. }
  erewrite bind_ok by exact E.
  split; reflexivity.
Qed.

(** The scenario image: header at 0, "GTX 10XX" footer at hex index 100. *)
Lemma run_with_footer_strip_witness :
  snd (main {| ignore_sanity_check := false; disable_footer_strip := false;
               skip_the_very_important_warning := true |} image_gtx10 "")
  = Ok tt
  /\
  written
    (fst (main {| ignore_sanity_check := false; disable_footer_strip := false;
                  skip_the_very_important_warning := true |} image_gtx10 ""))
  = Some (bytes_slice image_gtx10 0 50).
Proof.
  apply (run_with_footer_strip image_gtx10 0 50 false ""
           (firstn 4 FOOTER_GAPS) 348 "GTX 10XX"%string (skipn 5 FOOTER_GAPS)).
  - vm_compute; reflexivity.
  - reflexivity.
  - vm_compute; reflexivity.
  - vm_compute; reflexivity.
  - left. vm_compute; reflexivity.
Defined.

(** X17. The marker counts of the sanity check are plain occurrence
    counts.  Neither marker can overlap a copy of itself, so the
    non-overlapping count of [bytes.count] is the number of indices of the
    range at which the marker occurs, and [bytes.find] gives the first of
    them. *)
Theorem marker_counts_are_occurrence_counts (c : list byte) (lo hi : nat) :
  bytes_count c NPDS lo hi = length (occurrences NPDS c lo hi) /\
  bytes_count c NPDE lo hi = length (occurrences NPDE c lo hi) /\
  bytes_find c NPDS lo hi = hd_error (occurrences NPDS c lo hi).
Proof.
  split; [|split].
  - apply (bytes_count_occurrences NPDS npds_nonempty npds_overlap_free).
  - apply (bytes_count_occurrences NPDE npde_nonempty npde_overlap_free).
  - apply (bytes_find_occurrences NPDS npds_nonempty).
Qed.
